(** * The cart items component (assets/component-cart-items.js)

    A shallow embedding of [CartItemsComponent]: the custom element that
    reacts to quantity-selector events, posts the change to the cart
    endpoint and reconciles its DOM with the section the server renders.

    The DOM the component reads and writes is a record ([page]); the
    methods are computations over it that may throw and that emit, in
    program order, the calls they make into their collaborators
    ([effect]).  The promise chain of [updateQuantity] is a computation
    run when the request settles.

    The collaborators the component imports ([fetch], [morphSection],
    [resetShimmer], the performance markers, the [shimmer] of a text
    component, the events) appear as effects only: what they do to the
    page in turn is not part of the model.  Numbers are integers, and
    the response is read at the shape the JSDoc of the component gives
    it. *)

From Stdlib Require Import ZArith String Ascii List Bool Lia.
From stdpp Require Import base option list gmap strings pretty.

Local Open Scope string_scope.
Local Open Scope list_scope.
Local Open Scope Z_scope.

(** ** JavaScript values the component handles *)

(** A thrown value: [new Error(message)], a [TypeError], a [SyntaxError]
    or whatever a rejected [fetch] carries. *)
Inductive js_error : Type :=
| JsError (name message : string).

(** How a function body ends. *)
Inductive completion (A : Type) : Type :=
| Normal (a : A)
| Throw (e : js_error).
Arguments Normal {A} a.
Arguments Throw {A} e.

(** The result of [parseInt]: an integer, or [NaN]. *)
Inductive js_number : Type :=
| NaN
| Num (z : Z).

(** [if (s)] on a string or [undefined]: only a non-empty string is truthy. *)
Definition truthy (o : option string) : bool :=
  match o with
  | Some s => negb (String.eqb s "")
  | None => false
  end.

(** [arr[i]] for a number [i]: [undefined] outside the array. *)
Definition at_index {A : Type} (arr : list A) (i : Z) : option A :=
  if i <? 0 then None else arr !! Z.to_nat i.

(** ** [parseInt(text, 10)] *)

Definition is_white_space (a : ascii) : bool :=
  let n := nat_of_ascii a in
  ((9 <=? n)%nat && (n <=? 13)%nat) || (n =? 32)%nat.

Fixpoint trim_start (s : string) : string :=
  match s with
  | String a rest => if is_white_space a then trim_start rest else s
  | EmptyString => s
  end.

Definition digit_value (a : ascii) : option Z :=
  let n := nat_of_ascii a in
  if ((48 <=? n)%nat && (n <=? 57)%nat) then Some (Z.of_nat n - 48) else None.

(** The longest prefix of decimal digits, read left to right; [acc] is
    [NaN] until the first digit. *)
Fixpoint leading_digits (s : string) (acc : js_number) : js_number :=
  match s with
  | String a rest =>
      match digit_value a with
      | Some d =>
          leading_digits rest
            (Num (10 * (match acc with Num z => z | NaN => 0 end) + d))
      | None => acc
      end
  | EmptyString => acc
  end.

Definition negate (n : js_number) : js_number :=
  match n with
  | Num z => Num (- z)
  | NaN => NaN
  end.

Definition parseInt10 (text : string) : js_number :=
  match trim_start text with
  | String "-" rest => negate (leading_digits rest NaN)
  | String "+" rest => leading_digits rest NaN
  | s => leading_digits s NaN
  end.

(** ** The server's response *)

(** A server-rendered section: its markup, and the text content of its
    first [[ref="cartItemCount"]] element when the parsed document has
    one (what [DOMParser] and [querySelector] recover from the markup). *)
Record fragment : Type := {
  markup : string;
  cartItemCountText : option string;
}.

(** A value of the [sections] object: the cart endpoint answers [null] for
    a section it could not render. *)
Inductive section_value : Type :=
| SectionNull
| SectionHtml (html : fragment).

(** [{variant_id: number, quantity: number}] *)
Record cart_item : Type := {
  variant_id : Z;
  item_quantity : Z;
}.

(** What [JSON.parse(responseText)] returns, at the shape the component
    reads: [null], or a value with the optional properties [errors]
    (a string), [sections] and [items].  A JSON number, string or array
    has none of the three and reads like the empty object. *)
Inductive json_response : Type :=
| JsonNull
| JsonObject (errors : option string)
             (sections : option (gmap string section_value))
             (items : option (list cart_item)).

(** ** The page *)

(** The [input] of a quantity selector. *)
Record quantity_input : Type := {
  value : string;
  defaultValue : string;
}.

(** An element of [refs.quantitySelectors]; [selector_input] is
    [querySelector('input')]. *)
Record quantity_selector : Type := {
  selector_input : option quantity_input;
}.

(** An element of [refs.cartItemRows]. *)
Record cart_item_row : Type := {
  data_key : option string;            (* row.dataset.key *)
  data_parent_key : option string;     (* row.dataset.parentKey *)
  clientHeight : Z;
  style_row_height : option string;    (* the --row-height property *)
  row_classList : list string;
  text_component : bool;               (* querySelector('text-component') finds one *)
  in_document : bool;                  (* false once row.remove() has run *)
}.

(** A [cart-items-component] element of the document. *)
Record cart_items_element : Type := {
  is_HTMLElement : bool;
  element_sectionId : option string;   (* item.dataset.sectionId *)
}.

Inductive selector_tag : Type :=
| quantity_selector_component
| cart_quantity_selector_component.

(** A quantity selector component of the document. *)
Record selector_component : Type := {
  tag : selector_tag;
  data_variant_id : option string;
  data_cart_quantity : option string;  (* of its input[data-cart-quantity], if any *)
  has_updateCartQuantity : bool;
  has_updateButtonStates : bool;
}.

(** The configuration [updateQuantity] receives. *)
Record config : Type := {
  line : Z;
  quantity : Z;
  action : string;
}.

(** A request in flight: what the callbacks of its promise chain hold. *)
Record request : Type := {
  request_line : Z;
  request_marker : string;
}.

Record page : Type := {
  (* the component element *)
  classList : list string;
  dataset_sectionId : option string;
  (* this.refs *)
  quantitySelectors : list quantity_selector;
  cartItemRows : list cart_item_row;
  cartTotal : bool;
  cartItemError : gmap Z string;                 (* textContent of refs[`cartItemError-${line}`] *)
  cartItemErrorContainer : gmap Z (list string); (* classList of refs[`cartItemErrorContainer-${line}`] *)
  (* the document around it *)
  cart_items_components : list cart_items_element;
  selector_components : list selector_component;
  location_pathname : string;
  cart_change_url : string;
  reduced_motion : bool;
  (* the event loop *)
  in_flight : list request;
  animating : list nat;                          (* rows whose animation end is awaited *)
}.

(** The body of the POST. *)
Record request_body : Type := {
  body_line : Z;
  body_quantity : Z;
  body_sections : string;
  body_sections_url : string;
}.

(** What the component does to its collaborators, and the switches of
    its own class list. *)
Inductive effect : Type :=
| CreateStartingMarker (label : string)
| MeasureFromMarker (label : string)
| ClassListAdd (token : string)
| ClassListRemove (token : string)
| ShimmerCartTotal
| ShimmerRowText (row : nat)
| Fetch (url : string) (body : request_body)
| ResetShimmer
| ConsoleError (e : js_error)
| DispatchCartUpdate (sectionId : string) (itemCount : js_number)
                     (source : string) (sections : option (gmap string section_value))
| MorphSection (sectionId : string) (html : option section_value)
| UpdateCartQuantity (selector : nat)
| UpdateButtonStates (selector : nat)
| OnAnimationEnd (row : nat)
| UncaughtError (e : js_error).

(** ** Computations over the page *)

(** A method body: from the page it runs on to how it ends, the page it
    leaves and the effects it emitted, oldest first. *)
Definition M (A : Type) : Type := page → completion A * page * list effect.

#[export] Instance M_ret : MRet M := λ A a p, (Normal a, p, []).

#[export] Instance M_bind : MBind M := λ A B f m p,
  match m p with
  | (Normal a, p1, out1) =>
      match f a p1 with
      | (r, p2, out2) => (r, p2, out1 ++ out2)
      end
  | (Throw e, p1, out1) => (Throw e, p1, out1)
  end.

Definition throw {A : Type} (e : js_error) : M A := λ p, (Throw e, p, []).
Definition emit (a : effect) : M unit := λ p, (Normal tt, p, [a]).
Definition read {A : Type} (f : page → A) : M A := λ p, (Normal (f p), p, []).
Definition write (f : page → page) : M unit := λ p, (Normal tt, f p, []).

(** [if (c) body] with nothing after the test fails. *)
Definition when (c : bool) (body : M unit) : M unit :=
  if c then body else mret tt.

(** [for (const x of xs) body(i, x)], with the position [i] of [x]. *)
Fixpoint for_each {A : Type} (body : nat → A → M unit) (i : nat) (xs : list A) : M unit :=
  match xs with
  | [] => mret tt
  | x :: rest => body i x ;; for_each body (S i) rest
  end.

(** *** Promises

    A promise is the computation that runs when it settles; it is
    rejected when that computation throws. *)

(** [promise.then(callback)] *)
Definition then_ {A B : Type} (promise : M A) (callback : A → M B) : M B :=
  promise ≫= callback.

(** [promise.catch(handler)] *)
Definition catch_ {A : Type} (promise : M A) (handler : js_error → M A) : M A := λ p,
  match promise p with
  | (Throw e, p1, out1) =>
      match handler e p1 with
      | (r, p2, out2) => (r, p2, out1 ++ out2)
      end
  | settled => settled
  end.

(** [promise.finally(callback)]: the callback runs either way; the
    promise keeps its state unless the callback throws. *)
Definition finally_ {A : Type} (promise : M A) (callback : M unit) : M A := λ p,
  match promise p with
  | (r, p1, out1) =>
      match callback p1 with
      | (Normal _, p2, out2) => (r, p2, out1 ++ out2)
      | (Throw e, p2, out2) => (Throw e, p2, out1 ++ out2)
      end
  end.

(** *** Field updates *)

Definition set_classList (v : list string) (p : page) : page :=
  {| classList := v; dataset_sectionId := dataset_sectionId p;
     quantitySelectors := quantitySelectors p; cartItemRows := cartItemRows p;
     cartTotal := cartTotal p; cartItemError := cartItemError p;
     cartItemErrorContainer := cartItemErrorContainer p;
     cart_items_components := cart_items_components p;
     selector_components := selector_components p;
     location_pathname := location_pathname p; cart_change_url := cart_change_url p;
     reduced_motion := reduced_motion p; in_flight := in_flight p;
     animating := animating p |}.

Definition set_quantitySelectors (v : list quantity_selector) (p : page) : page :=
  {| classList := classList p; dataset_sectionId := dataset_sectionId p;
     quantitySelectors := v; cartItemRows := cartItemRows p;
     cartTotal := cartTotal p; cartItemError := cartItemError p;
     cartItemErrorContainer := cartItemErrorContainer p;
     cart_items_components := cart_items_components p;
     selector_components := selector_components p;
     location_pathname := location_pathname p; cart_change_url := cart_change_url p;
     reduced_motion := reduced_motion p; in_flight := in_flight p;
     animating := animating p |}.

Definition set_cartItemRows (v : list cart_item_row) (p : page) : page :=
  {| classList := classList p; dataset_sectionId := dataset_sectionId p;
     quantitySelectors := quantitySelectors p; cartItemRows := v;
     cartTotal := cartTotal p; cartItemError := cartItemError p;
     cartItemErrorContainer := cartItemErrorContainer p;
     cart_items_components := cart_items_components p;
     selector_components := selector_components p;
     location_pathname := location_pathname p; cart_change_url := cart_change_url p;
     reduced_motion := reduced_motion p; in_flight := in_flight p;
     animating := animating p |}.

Definition set_cartItemError (v : gmap Z string) (p : page) : page :=
  {| classList := classList p; dataset_sectionId := dataset_sectionId p;
     quantitySelectors := quantitySelectors p; cartItemRows := cartItemRows p;
     cartTotal := cartTotal p; cartItemError := v;
     cartItemErrorContainer := cartItemErrorContainer p;
     cart_items_components := cart_items_components p;
     selector_components := selector_components p;
     location_pathname := location_pathname p; cart_change_url := cart_change_url p;
     reduced_motion := reduced_motion p; in_flight := in_flight p;
     animating := animating p |}.

Definition set_cartItemErrorContainer (v : gmap Z (list string)) (p : page) : page :=
  {| classList := classList p; dataset_sectionId := dataset_sectionId p;
     quantitySelectors := quantitySelectors p; cartItemRows := cartItemRows p;
     cartTotal := cartTotal p; cartItemError := cartItemError p;
     cartItemErrorContainer := v;
     cart_items_components := cart_items_components p;
     selector_components := selector_components p;
     location_pathname := location_pathname p; cart_change_url := cart_change_url p;
     reduced_motion := reduced_motion p; in_flight := in_flight p;
     animating := animating p |}.

Definition set_selector_components (v : list selector_component) (p : page) : page :=
  {| classList := classList p; dataset_sectionId := dataset_sectionId p;
     quantitySelectors := quantitySelectors p; cartItemRows := cartItemRows p;
     cartTotal := cartTotal p; cartItemError := cartItemError p;
     cartItemErrorContainer := cartItemErrorContainer p;
     cart_items_components := cart_items_components p;
     selector_components := v;
     location_pathname := location_pathname p; cart_change_url := cart_change_url p;
     reduced_motion := reduced_motion p; in_flight := in_flight p;
     animating := animating p |}.

Definition set_in_flight (v : list request) (p : page) : page :=
  {| classList := classList p; dataset_sectionId := dataset_sectionId p;
     quantitySelectors := quantitySelectors p; cartItemRows := cartItemRows p;
     cartTotal := cartTotal p; cartItemError := cartItemError p;
     cartItemErrorContainer := cartItemErrorContainer p;
     cart_items_components := cart_items_components p;
     selector_components := selector_components p;
     location_pathname := location_pathname p; cart_change_url := cart_change_url p;
     reduced_motion := reduced_motion p; in_flight := v;
     animating := animating p |}.

Definition set_animating (v : list nat) (p : page) : page :=
  {| classList := classList p; dataset_sectionId := dataset_sectionId p;
     quantitySelectors := quantitySelectors p; cartItemRows := cartItemRows p;
     cartTotal := cartTotal p; cartItemError := cartItemError p;
     cartItemErrorContainer := cartItemErrorContainer p;
     cart_items_components := cart_items_components p;
     selector_components := selector_components p;
     location_pathname := location_pathname p; cart_change_url := cart_change_url p;
     reduced_motion := reduced_motion p; in_flight := in_flight p;
     animating := v |}.

(** *** [DOMTokenList] *)

Definition contains (token : string) (tokens : list string) : bool :=
  bool_decide (token ∈ tokens).

Definition add_token (token : string) (tokens : list string) : list string :=
  if contains token tokens then tokens else tokens ++ [token].

Definition remove_token (token : string) (tokens : list string) : list string :=
  filter (λ t, t ≠ token) tokens.

(** ** The component *)

Definition disabled_class : string := "cart-items-disabled".

(** [get sectionId()] *)
Definition sectionId : M string :=
  attr ← read dataset_sectionId;
  match attr with
  | Some s => if truthy attr then mret s
              else throw (JsError "Error" "Section id missing")
  | None => throw (JsError "Error" "Section id missing")
  end.

(** [#disableCartItems()] *)
Definition disableCartItems : M unit :=
  write (λ p, set_classList (add_token disabled_class (classList p)) p) ;;
  emit (ClassListAdd disabled_class).

(** [#enableCartItems()] *)
Definition enableCartItems : M unit :=
  write (λ p, set_classList (remove_token disabled_class (classList p)) p) ;;
  emit (ClassListRemove disabled_class).

(** [set.add(x)] on a [Set] kept in insertion order. *)
Definition set_add (x : string) (set : list string) : list string :=
  if bool_decide (x ∈ set) then set else set ++ [x].

(** [new Set([own])] followed by the [forEach] over the
    [cart-items-component] elements of the document. *)
Definition sectionsToUpdate (own : string) (items : list cart_items_element) : list string :=
  foldl (λ set item,
           match element_sectionId item with
           | Some s =>
               if is_HTMLElement item && truthy (element_sectionId item)
               then set_add s set else set
           | None => set
           end) [own] items.

(** [Array.from(set).join(',')] *)
Definition join (parts : list string) : string := String.concat "," parts.

(** [updateQuantity(config)], up to the call of [fetch]; the promise
    chain it builds is kept as a [request] in flight. *)
Definition updateQuantity (config : config) : M unit :=
  let cartPerformaceUpdateMarker := action config +:+ ":user-action" in
  emit (CreateStartingMarker cartPerformaceUpdateMarker) ;;
  disableCartItems ;;
  cartTotal ← read cartTotal;
  cartItemsComponents ← read cart_items_components;
  own ← sectionId;
  pathname ← read location_pathname;
  let body := {| body_line := line config;
                 body_quantity := quantity config;
                 body_sections := join (sectionsToUpdate own cartItemsComponents);
                 body_sections_url := pathname |} in
  when cartTotal (emit ShimmerCartTotal) ;;
  url ← read cart_change_url;
  emit (Fetch url body) ;;
  write (λ p, set_in_flight
                (in_flight p ++ [{| request_line := line config;
                                    request_marker := cartPerformaceUpdateMarker |}]) p).

(** The positions of the elements [keep] selects, counted from [i]. *)
Fixpoint positions {A : Type} (keep : A → bool) (i : nat) (xs : list A) : list nat :=
  match xs with
  | [] => []
  | x :: rest =>
      if keep x then i :: positions keep (S i) rest else positions keep (S i) rest
  end.

Definition detach (row : cart_item_row) : cart_item_row :=
  {| data_key := data_key row; data_parent_key := data_parent_key row;
     clientHeight := clientHeight row; style_row_height := style_row_height row;
     row_classList := row_classList row; text_component := text_component row;
     in_document := false |}.

Definition start_removing (row : cart_item_row) : cart_item_row :=
  {| data_key := data_key row; data_parent_key := data_parent_key row;
     clientHeight := clientHeight row;
     style_row_height := Some (pretty (clientHeight row) +:+ "px");
     row_classList := add_token "removing" (row_classList row);
     text_component := text_component row;
     in_document := in_document row |}.

(** [const remove = () => row.remove()] for the row at position [i]. *)
Definition remove (i : nat) : M unit :=
  write (λ p, set_cartItemRows (alter detach i (cartItemRows p)) p).

(** The callback of [rowsToRemove.forEach]. *)
Definition remove_row (i : nat) : M unit :=
  read reduced_motion ≫= λ prefersReducedMotion : bool,
  if prefersReducedMotion then remove i
  else
    write (λ p, set_cartItemRows (alter start_removing i (cartItemRows p)) p) ;;
    emit (OnAnimationEnd i) ;;
    write (λ p, set_animating (animating p ++ [i]) p).

(** The rows [onLineItemRemove] collects, as positions in
    [refs.cartItemRows]: the row itself, then its nested lines. *)
Definition rowsToRemove (rows : list cart_item_row) (i : nat)
    (cartItemRowToRemove : cart_item_row) : list nat :=
  i :: positions (λ row, bool_decide (data_parent_key row = data_key cartItemRowToRemove))
         0%nat rows.

(** [onLineItemRemove(line)] *)
Definition onLineItemRemove (line : Z) : M unit :=
  updateQuantity {| line := line; quantity := 0; action := "clear" |} ;;
  rows ← read cartItemRows;
  match at_index rows (line - 1) with
  | None => mret tt
  | Some cartItemRowToRemove =>
      for_each (λ _ i, remove_row i) 0%nat
        (rowsToRemove rows (Z.to_nat (line - 1)) cartItemRowToRemove)
  end.

(** [event.detail] of a [QuantitySelectorUpdateEvent]. *)
Record detail : Type := {
  detail_quantity : Z;
  cartLine : option Z;
}.

(** [#onQuantityChange(event)] *)
Definition onQuantityChange (event : detail) : M unit :=
  let quantity := detail_quantity event in
  match cartLine event with
  | None => mret tt
  | Some line =>
      if line =? 0 then mret tt
      else if quantity =? 0 then onLineItemRemove line
      else
        updateQuantity {| line := line; quantity := quantity; action := "change" |} ;;
        rows ← read cartItemRows;
        match at_index rows (line - 1) with
        | None => mret tt
        | Some lineItemRow =>
            when (text_component lineItemRow)
                 (emit (ShimmerRowText (Z.to_nat (line - 1))))
        end
  end.

(** *** The response *)

(** What [fetch] resolves to, stage by stage: the [Response], the text
    [response.text()] resolves to, and what [JSON.parse] makes of it. *)
Inductive responseText : Type :=
| NotJson (e : js_error)
| Json (parsed : json_response).

Inductive response : Type :=
| TextRejects (e : js_error)
| TextResolves (text : responseText).

Inductive fetch_result : Type :=
| FetchRejects (e : js_error)
| FetchResolves (r : response).

Definition fetch (result : fetch_result) : M response :=
  match result with
  | FetchRejects e => throw e
  | FetchResolves r => mret r
  end.

Definition text (r : response) : M responseText :=
  match r with
  | TextRejects e => throw e
  | TextResolves t => mret t
  end.

Definition JSON_parse (t : responseText) : M json_response :=
  match t with
  | NotJson e => throw e
  | Json parsed => mret parsed
  end.

Definition null_property (name : string) : js_error :=
  JsError "TypeError" ("Cannot read properties of null (reading '" +:+ name +:+ "')").

Definition undefined_property (name : string) : js_error :=
  JsError "TypeError" ("Cannot read properties of undefined (reading '" +:+ name +:+ "')").

(** [parsedResponseText.errors] *)
Definition get_errors (parsedResponseText : json_response) : M (option string) :=
  match parsedResponseText with
  | JsonNull => throw (null_property "errors")
  | JsonObject errors _ _ => mret errors
  end.

(** [parsedResponseText.sections] *)
Definition get_sections (parsedResponseText : json_response)
  : M (option (gmap string section_value)) :=
  match parsedResponseText with
  | JsonNull => throw (null_property "sections")
  | JsonObject _ sections _ => mret sections
  end.

(** [updatedCart.items] *)
Definition get_items (updatedCart : json_response) : M (option (list cart_item)) :=
  match updatedCart with
  | JsonNull => throw (null_property "items")
  | JsonObject _ _ items => mret items
  end.

(** [sections[key]], a [TypeError] when [sections] is [undefined]. *)
Definition member (sections : option (gmap string section_value)) (key : string)
  : M (option section_value) :=
  match sections with
  | None => throw (undefined_property key)
  | Some m => mret (m !! key)
  end.

Definition revert (input : quantity_input) : quantity_input :=
  {| value := defaultValue input; defaultValue := defaultValue input |}.

(** [#handleCartError(line, parsedResponseText)] *)
Definition handleCartError (line : Z) (parsedResponseText : json_response) : M unit :=
  selectors ← read quantitySelectors;
  let quantitySelector := at_index selectors (line - 1) in
  match quantitySelector ≫= selector_input with
  | None => throw (JsError "Error" "Quantity input not found")
  | Some quantityInput =>
      write (set_quantitySelectors
               (<[Z.to_nat (line - 1) := {| selector_input := Some (revert quantityInput) |}]>
                  selectors)) ;;
      itemError ← read (λ p, cartItemError p !! line);
      itemErrorContainer ← read (λ p, cartItemErrorContainer p !! line);
      match itemError, itemErrorContainer with
      | None, _ => throw (JsError "Error" "Cart item error not found")
      | Some _, None => throw (JsError "Error" "Cart item error container not found")
      | Some _, Some tokens =>
          errors ← get_errors parsedResponseText;
          write (λ p, set_cartItemError
                        (<[line := default "" errors]> (cartItemError p)) p) ;;
          write (λ p, set_cartItemErrorContainer
                        (<[line := remove_token "hidden" tokens]>
                           (cartItemErrorContainer p)) p)
      end
  end.

Definition with_cart_quantity (q : string) (s : selector_component) : selector_component :=
  {| tag := tag s; data_variant_id := data_variant_id s;
     data_cart_quantity := Some q;
     has_updateCartQuantity := has_updateCartQuantity s;
     has_updateButtonStates := has_updateButtonStates s |}.

(** The body of the inner loop of [#updateQuantitySelectors], for the
    selector at position [i] of the document; the selectors the query
    does not match are passed over. *)
Definition update_selector (item : cart_item) (i : nat) (selector : selector_component)
  : M unit :=
  let variantId := pretty (variant_id item) in
  when (bool_decide (data_variant_id selector = Some variantId))
    match data_cart_quantity selector with
    | None => mret tt
    | Some _ =>
        write (λ p, set_selector_components
                      (alter (with_cart_quantity (pretty (item_quantity item))) i
                             (selector_components p)) p) ;;
        when (has_updateCartQuantity selector) (emit (UpdateCartQuantity i))
    end.

(** [#updateQuantitySelectors(updatedCart)] *)
Definition updateQuantitySelectors (updatedCart : json_response) : M unit :=
  items ← get_items updatedCart;
  match items with
  | None => mret tt
  | Some items =>
      for_each (λ _ item,
                  selectors ← read selector_components;
                  for_each (update_selector item) 0%nat selectors)
               0%nat items
  end.

(** [#updateCartQuantitySelectorButtonStates()] *)
Definition updateCartQuantitySelectorButtonStates : M unit :=
  cartQuantitySelectors ← read selector_components;
  for_each (λ i selector,
              match tag selector with
              | cart_quantity_selector_component =>
                  when (has_updateButtonStates selector) (emit (UpdateButtonStates i))
              | quantity_selector_component => mret tt
              end)
           0%nat cartQuantitySelectors.

(** [newSectionHTML.querySelector('[ref="cartItemCount"]')?.textContent],
    for the document parsed from [html]: [undefined] and [null] parse as
    plain text, with no element in it. *)
Definition hiddenItemCount (html : option section_value) : option string :=
  match html with
  | Some (SectionHtml f) => cartItemCountText f
  | Some SectionNull | None => None
  end.

(** The second [then] callback of [updateQuantity]. *)
Definition onResponseText (line : Z) (t : responseText) : M unit :=
  parsedResponseText ← JSON_parse t;
  emit ResetShimmer ;;
  errors ← get_errors parsedResponseText;
  if truthy errors then handleCartError line parsedResponseText
  else
    sections ← get_sections parsedResponseText;
    own ← sectionId;
    html ← member sections own;
    let newCartHiddenItemCount := hiddenItemCount html in
    let newCartItemCount :=
      if truthy newCartHiddenItemCount
      then parseInt10 (default "" newCartHiddenItemCount)
      else Num 0 in
    updateQuantitySelectors parsedResponseText ;;
    target ← sectionId;
    sections ← get_sections parsedResponseText;
    emit (DispatchCartUpdate target newCartItemCount "cart-items-component" sections) ;;
    target ← sectionId;
    sections ← get_sections parsedResponseText;
    own ← sectionId;
    html ← member sections own;
    emit (MorphSection target html) ;;
    updateCartQuantitySelectorButtonStates.

(** [fetch(...).then(...).then(...)]: the chain before its [catch]. *)
Definition response_chain (r : request) (result : fetch_result) : M unit :=
  then_ (then_ (fetch result) text) (onResponseText (request_line r)).

(** The promise chain of [updateQuantity], run when [fetch] settles. *)
Definition settle (r : request) (result : fetch_result) : M unit :=
  finally_
    (catch_ (response_chain r result) (λ error, emit (ConsoleError error)))
    (enableCartItems ;; emit (MeasureFromMarker (request_marker r))).

(** ** The event loop *)

Inductive occurrence : Type :=
| QuantitySelectorUpdate (event : detail)         (* the listener is called *)
| Settles (k : nat) (result : fetch_result)       (* the k-th request in flight settles *)
| AnimationEnds (row : nat).                      (* the animations of a row end *)

(** A task of the event loop: what it throws is reported, not propagated. *)
Definition task (m : M unit) (p : page) : page * list effect :=
  match m p with
  | (Normal _, p', out) => (p', out)
  | (Throw e, p', out) => (p', out ++ [UncaughtError e])
  end.

Fixpoint remove_first (i : nat) (xs : list nat) : list nat :=
  match xs with
  | [] => []
  | x :: rest => if bool_decide (x = i) then rest else x :: remove_first i rest
  end.

(** Modelled from the spec: [onAnimationEnd] of [@theme/utilities], which
    the component imports and the sources at hand do not include.  The
    component removes a row "after the removal animation ends":
    [onAnimationEnd(row, remove)] is taken to call [remove] once, when
    the animations of the row it was called for have ended. *)
Definition animation_ended (row : nat) (p : page) : page * list effect :=
  if bool_decide (row ∈ animating p)
  then task (remove row) (set_animating (remove_first row (animating p)) p)
  else (p, []).

Definition step (o : occurrence) (p : page) : page * list effect :=
  match o with
  | QuantitySelectorUpdate event => task (onQuantityChange event) p
  | Settles k result =>
      match in_flight p !! k with
      | Some r => task (settle r result) (set_in_flight (delete k (in_flight p)) p)
      | None => (p, [])
      end
  | AnimationEnds row => animation_ended row p
  end.

(** A run of the loop, with everything it emitted. *)
Fixpoint run (os : list occurrence) (p : page) : page * list effect :=
  match os with
  | [] => (p, [])
  | o :: rest =>
      match step o p with
      | (p1, out1) =>
          match run rest p1 with
          | (p2, out2) => (p2, out1 ++ out2)
          end
      end
  end.

(** ** The debounced listener *)

Section Debounce.
Context {A : Type}.
Variable wait : Z.

(** Modelled from the spec: [debounce] of [@theme/utilities], which the
    component imports and the sources at hand do not include.  The spec
    asks for "debouncing rapid quantity-change events": each call of the
    wrapper clears the timer the previous call set and sets a new one,
    [wait] milliseconds ahead, that will call the function with the
    arguments of this call. *)
Definition debounced (now : Z) (args : A) (timeout : option (Z * A)) : option (Z * A) :=
  Some (now + wait, args).

(** The timer is run once its time has come. *)
Definition due (now : Z) (timeout : option (Z * A)) : list A * option (Z * A) :=
  match timeout with
  | Some (time, args) => if time <=? now then ([args], None) else ([], timeout)
  | None => ([], None)
  end.

(** The calls of the function that a sequence of calls of the wrapper,
    each at its time, leads to; the timer left at the end runs too. *)
Fixpoint calls (arrivals : list (Z * A)) (timeout : option (Z * A)) : list A :=
  match arrivals with
  | [] =>
      match timeout with
      | Some (_, args) => [args]
      | None => []
      end
  | (now, args) :: rest =>
      match due now timeout with
      | (ran, timeout') => ran ++ calls rest (debounced now args timeout')
      end
  end.

(** Each event follows the one before it by less than [wait]. *)
Fixpoint burst (previous : Z) (arrivals : list (Z * A)) : Prop :=
  match arrivals with
  | [] => True
  | (now, _) :: rest => now - previous < wait ∧ burst now rest
  end.
End Debounce.

(** [#debouncedOnChange = debounce(this.#onQuantityChange, 300).bind(this)],
    as the listener of [ThemeEvents.quantitySelectorUpdate]: what the
    event loop runs for events dispatched at the given times. *)
Definition debouncedOnChange (arrivals : list (Z * detail)) : list occurrence :=
  QuantitySelectorUpdate <$> calls 300 arrivals None.

(** ** Observations on effects and pages *)

Definition is_fetch (a : effect) : bool :=
  match a with
  | Fetch _ _ => true
  | _ => false
  end.

(** [morphSection] and the dispatch of a [CartUpdateEvent]. *)
Definition is_reconciliation (a : effect) : bool :=
  match a with
  | MorphSection _ _ | DispatchCartUpdate _ _ _ _ => true
  | _ => false
  end.

Definition fetches (out : list effect) : list effect := filter (λ a, is_fetch a = true) out.

Definition disabled (p : page) : bool := contains disabled_class (classList p).

(** The quantity input of a line. *)
Definition quantityInput (p : page) (line : Z) : option quantity_input :=
  at_index (quantitySelectors p) (line - 1) ≫= selector_input.

(** The item count the component reports for a section. *)
Definition newCartItemCount (html : option section_value) : js_number :=
  if truthy (hiddenItemCount html)
  then parseInt10 (default "" (hiddenItemCount html))
  else Num 0.

(** A successful response. *)
Definition cart_response (errors : option string)
    (sections : option (gmap string section_value)) (items : option (list cart_item))
  : fetch_result :=
  FetchResolves (TextResolves (Json (JsonObject errors sections items))).

(** ** Pages and requests the statements speak of *)

Definition section_id_missing : js_error := JsError "Error" "Section id missing".

(** The page with the component disabled, and enabled. *)
Definition disable (p : page) : page :=
  set_classList (add_token disabled_class (classList p)) p.

Definition enable (p : page) : page :=
  set_classList (remove_token disabled_class (classList p)) p.

Definition marker_of (c : config) : string := action c +:+ ":user-action".

Definition request_of (c : config) : request :=
  {| request_line := line c; request_marker := marker_of c |}.

Definition body_of (c : config) (own : string) (p : page) : request_body :=
  {| body_line := line c;
     body_quantity := quantity c;
     body_sections := join (sectionsToUpdate own (cart_items_components p));
     body_sections_url := location_pathname p |}.

(** The page once the request of [c] is under way. *)
Definition requested (c : config) (p : page) : page :=
  set_in_flight (in_flight (disable p) ++ [request_of c]) (disable p).

(** What [updateQuantity] emits when it reaches [fetch]. *)
Definition request_effects (c : config) (own : string) (p : page) : list effect :=
  [CreateStartingMarker (marker_of c); ClassListAdd disabled_class]
  ++ (if cartTotal p then [ShimmerCartTotal] else [])
  ++ [Fetch (cart_change_url p) (body_of c own p)].


(** The page after [quantityInput.value = quantityInput.defaultValue]. *)
Definition reverted (line : Z) (input : quantity_input) (p : page) : page :=
  set_quantitySelectors
    (<[Z.to_nat (line - 1) := {| selector_input := Some (revert input) |}]>
       (quantitySelectors p)) p.

(** The page after the error text is set and its container unhidden. *)
Definition shown (line : Z) (errors : string) (tokens : list string) (p : page) : page :=
  set_cartItemErrorContainer
    (<[line := remove_token "hidden" tokens]> (cartItemErrorContainer p))
    (set_cartItemError (<[line := errors]> (cartItemError p)) p).

(** The error of a response is on display for a line: its input is back
    at the default value, the inline error reads [errors] and the
    container is not hidden. *)
Definition cart_error_shown (line : Z) (errors : string) (before after : page) : Prop :=
  (∃ input, quantityInput before line = Some input
            ∧ quantityInput after line = Some (revert input))
  ∧ cartItemError after !! line = Some errors
  ∧ (∃ tokens, cartItemErrorContainer after !! line = Some tokens ∧ "hidden" ∉ tokens).

Definition no_reconciliation (out : list effect) : Prop :=
  Forall (λ a, is_reconciliation a = false) out.

(** "Every response with truthy [errors] has its error shown and is not
    reconciled", whatever the page. *)
Definition every_cart_error_is_shown : Prop :=
  ∀ (r : request) (errors : string) sections items (p p' : page) c out,
    truthy (Some errors) = true →
    settle r (cart_response (Some errors) sections items) p = (c, p', out) →
    cart_error_shown (request_line r) errors p p' ∧ no_reconciliation out.

(** What the callbacks after the chain emit. *)
Definition finally_effects (r : request) : list effect :=
  [ClassListRemove disabled_class; MeasureFromMarker (request_marker r)].

(** *** Example pages *)

Definition parent_row : cart_item_row :=
  {| data_key := Some "40:a"; data_parent_key := None; clientHeight := 80;
     style_row_height := None; row_classList := []; text_component := true;
     in_document := true |}.

Definition nested_row : cart_item_row :=
  {| data_key := Some "41:b"; data_parent_key := Some "40:a"; clientHeight := 40;
     style_row_height := None; row_classList := []; text_component := false;
     in_document := true |}.

Definition other_row : cart_item_row :=
  {| data_key := Some "42:c"; data_parent_key := None; clientHeight := 80;
     style_row_height := None; row_classList := []; text_component := true;
     in_document := true |}.

(** A cart page with three lines, the second nested under the first, and
    a cart drawer next to it. *)
Definition cart_page : page :=
  {| classList := []; dataset_sectionId := Some "main-cart";
     quantitySelectors :=
       [ {| selector_input := Some {| value := "7"; defaultValue := "2" |} |};
         {| selector_input := Some {| value := "1"; defaultValue := "1" |} |};
         {| selector_input := Some {| value := "3"; defaultValue := "3" |} |} ];
     cartItemRows := [parent_row; nested_row; other_row];
     cartTotal := true;
     cartItemError := {[ 1 := ""; 2 := ""; 3 := "" ]};
     cartItemErrorContainer := {[ 1 := ["hidden"]; 2 := ["hidden"]; 3 := ["hidden"] ]};
     cart_items_components :=
       [ {| is_HTMLElement := true; element_sectionId := Some "main-cart" |};
         {| is_HTMLElement := true; element_sectionId := Some "cart-drawer" |} ];
     selector_components :=
       [ {| tag := cart_quantity_selector_component; data_variant_id := Some "40";
            data_cart_quantity := Some "2"; has_updateCartQuantity := true;
            has_updateButtonStates := true |} ];
     location_pathname := "/cart"; cart_change_url := "/cart/change";
     reduced_motion := false; in_flight := []; animating := [] |}.

Definition with_sectionId (v : option string) (p : page) : page :=
  {| classList := classList p; dataset_sectionId := v;
     quantitySelectors := quantitySelectors p; cartItemRows := cartItemRows p;
     cartTotal := cartTotal p; cartItemError := cartItemError p;
     cartItemErrorContainer := cartItemErrorContainer p;
     cart_items_components := cart_items_components p;
     selector_components := selector_components p;
     location_pathname := location_pathname p; cart_change_url := cart_change_url p;
     reduced_motion := reduced_motion p; in_flight := in_flight p;
     animating := animating p |}.

(** The cart page on which the element lacks [data-section-id]. *)
Definition page_without_section_id : page := with_sectionId None cart_page.

(** The cart page after its quantity selectors went away. *)
Definition page_without_selectors : page := set_quantitySelectors [] cart_page.

Definition sold_out : string := "All 2 Shirt are in your cart.".

Definition change_line_1 : request :=
  {| request_line := 1; request_marker := "change:user-action" |}.

(** The effects carry a [CartUpdateEvent] and, right after it, the morph
    of a section. *)
Definition reconciles (out : list effect) : Prop :=
  ∃ before after sid count source sections html,
    out = before ++ DispatchCartUpdate sid count source sections
                 :: MorphSection sid html :: after.

(** "Every response without [errors] is reconciled", whatever else the
    response holds. *)
Definition every_errorless_response_is_reconciled : Prop :=
  ∀ (r : request) sections items (p p' : page) c out,
    settle r (cart_response None sections items) p = (c, p', out) →
    reconciles out.

(** The answer of the cart endpoint to a request it refuses without an
    [errors] property: there is no [sections] property either. *)
Definition refusal : fetch_result := cart_response None None None.

(** A computation that ends normally, leaves the section id alone and
    neither morphs nor dispatches. *)
Definition quiet (m : M unit) : Prop :=
  ∀ p, ∃ p' out,
    m p = (Normal tt, p', out)
    ∧ dataset_sectionId p' = dataset_sectionId p
    ∧ no_reconciliation out.

Definition network_down : js_error := JsError "TypeError" "Failed to fetch".

Definition main_cart_section : fragment :=
  {| markup := "<div id='shopify-section-main-cart'>...</div>";
     cartItemCountText := Some "5" |}.

(** *** Removal *)

(** What the [forEach] of [onLineItemRemove] does to a row: it leaves the
    document at once under reduced motion and starts its removal
    animation otherwise. *)
Definition removal (reduced : bool) : cart_item_row → cart_item_row :=
  if reduced then detach else start_removing.

(** The rows after [f] ran on the rows at the positions [targets], in
    order. *)
Definition rows_after (f : cart_item_row → cart_item_row)
    (rows : list cart_item_row) (targets : list nat) : list cart_item_row :=
  foldl (λ rows i, alter f i rows) rows targets.

Definition clear (line : Z) : config :=
  {| line := line; quantity := 0; action := "clear" |}.

(** The row at position [j] is the one of [line], or a line nested under
    it: its [data-parent-key] is the [data-key] of that row. *)
Definition removal_target (rows : list cart_item_row) (line : Z) (j : nat) : Prop :=
  ∃ target, at_index rows (line - 1) = Some target
    ∧ (Z.of_nat j = line - 1
       ∨ ∃ row, rows !! j = Some row ∧ data_parent_key row = data_key target).

(** The row at position [j] is out of the document. *)
Definition row_removed (j : nat) (p : page) : Prop :=
  ∃ row, cartItemRows p !! j = Some row ∧ in_document row = false.

(** The effects hold the request that clears [line]. *)
Definition issues_clear_request (line : Z) (out : list effect) : Prop :=
  CreateStartingMarker "clear:user-action" ∈ out
  ∧ ∃ url body, Fetch url body ∈ out ∧ body_line body = line ∧ body_quantity body = 0.

(** The row of [line], if there is one, is removed: at once under reduced
    motion, and otherwise awaited, and removed when its animation ends. *)
Definition line_row_removed (line : Z) (p p' : page) : Prop :=
  ∀ row, at_index (cartItemRows p) (line - 1) = Some row →
    let j := Z.to_nat (line - 1) in
    if reduced_motion p then row_removed j p'
    else j ∈ animating p' ∧ row_removed j (step (AnimationEnds j) p').1.

(** "Every event with quantity 0 and a truthy line removes the line",
    whatever the page. *)
Definition every_zero_quantity_removes_the_line : Prop :=
  ∀ (event : detail) (line : Z) (p p' : page) out,
    detail_quantity event = 0 → cartLine event = Some line → line ≠ 0 →
    step (QuantitySelectorUpdate event) p = (p', out) →
    issues_clear_request line out ∧ line_row_removed line p p'.

(** [onLineItemRemove] did to the rows of [p] what the removal of [line]
    asks for: the targets went through [removal], the others are as they
    were. *)
Definition removes_line_and_nested (line : Z) (p p' : page) : Prop :=
  ∀ j row, cartItemRows p !! j = Some row →
    (removal_target (cartItemRows p) line j →
       cartItemRows p' !! j = Some (removal (reduced_motion p) row))
    ∧ (¬ removal_target (cartItemRows p) line j → cartItemRows p' !! j = Some row).

(** "[onLineItemRemove] removes the row and its nested rows", whatever
    the page. *)
Definition every_removal_takes_nested_rows : Prop :=
  ∀ (line : Z) (p p' : page) c out,
    onLineItemRemove line p = (c, p', out) → removes_line_and_nested line p p'.

Definition remove_line_1 : detail := {| detail_quantity := 0; cartLine := Some 1 |}.

(** *** Changing a quantity *)

Definition change_of (event : detail) (line : Z) : config :=
  {| line := line; quantity := detail_quantity event; action := "change" |}.

(** The shimmer of the row of [line], when the row has a text component. *)
Definition row_shimmer (p : page) (line : Z) : list effect :=
  match at_index (cartItemRows p) (line - 1) with
  | Some lineItemRow =>
      if text_component lineItemRow then [ShimmerRowText (Z.to_nat (line - 1))] else []
  | None => []
  end.

Definition change_line_1_to_3 : detail := {| detail_quantity := 3; cartLine := Some 1 |}.

(** *** Bursts *)

(** The last event of a burst that starts with [first]. *)
Definition last_event {A : Type} (first : Z * A) (rest : list (Z * A)) : A :=
  default first.2 (last (rest.*2)).

(** Three clicks on the plus button of line 2, 100 ms apart. *)
Definition three_clicks : list (Z * detail) :=
  [ (1000, {| detail_quantity := 2; cartLine := Some 2 |});
    (1100, {| detail_quantity := 3; cartLine := Some 2 |});
    (1200, {| detail_quantity := 4; cartLine := Some 2 |}) ].

(** *** Requests in flight *)

(** Nothing is in flight and the component is enabled. *)
Definition idle (p : page) : Prop := in_flight p = [] ∧ disabled p = false.

(** "The component is disabled exactly while a request is in flight",
    along every run from an idle page. *)
Definition disabled_exactly_while_in_flight : Prop :=
  ∀ (p : page) (os : list occurrence),
    idle p →
    disabled (run os p).1 = true ↔ in_flight (run os p).1 ≠ [].

(** A computation that leaves the requests in flight alone. *)
Definition keeps_in_flight {A : Type} (m : M A) : Prop :=
  ∀ p c p' out, m p = (c, p', out) → in_flight p' = in_flight p.

Definition updated_cart : fetch_result :=
  cart_response None (Some {[ "main-cart" := SectionHtml main_cart_section ]})
    (Some [ {| variant_id := 40; item_quantity := 3 |} ]).

(** Two changes, on line 1 and on line 3, and the answer to the first
    while the second is still under way. *)
Definition overlapping_requests : list occurrence :=
  [ QuantitySelectorUpdate change_line_1_to_3;
    QuantitySelectorUpdate {| detail_quantity := 5; cartLine := Some 3 |};
    Settles 0 updated_cart ].

(** *** A component that stays disabled *)

(** The element has no section id, nothing is in flight, and the
    component is disabled. *)
Definition stuck (p : page) : Prop :=
  truthy (dataset_sectionId p) = false ∧ in_flight p = [] ∧ disabled p = true.

(** ** Cart and discount updates *)

(** The events [#handleCartUpdate] receives: a [DiscountUpdateEvent], or
    a [CartUpdateEvent] or [CartAddEvent], of which it reads whether its
    target is the component and [event.detail.data.sections]. *)
Inductive cart_event : Type :=
| DiscountUpdateEvent
| CartUpdateEvent (target_is_this : bool)
                  (sections : option (gmap string section_value)).

(** What [#handleCartUpdate] does: the effects the component has
    elsewhere, and the call of [sectionRenderer.renderSection]. *)
Inductive update_effect : Type :=
| Did (a : effect)
| RenderSection (sectionId : string) (cache : bool).

(** Computations that emit [update_effect]s. *)
Definition U (A : Type) : Type := page → completion A * page * list update_effect.

#[export] Instance U_ret : MRet U := λ A a p, (Normal a, p, []).

#[export] Instance U_bind : MBind U := λ A B f m p,
  match m p with
  | (Normal a, p1, out1) =>
      match f a p1 with
      | (r, p2, out2) => (r, p2, out1 ++ out2)
      end
  | (Throw e, p1, out1) => (Throw e, p1, out1)
  end.

(** A computation of the component, run for [#handleCartUpdate]. *)
Definition did {A : Type} (m : M A) : U A := λ p,
  match m p with
  | (r, p1, out) => (r, p1, Did <$> out)
  end.

(** [sectionRenderer.renderSection(sectionId, { cache })] *)
Definition renderSection (sectionId : string) (cache : bool) : U unit := λ p,
  (Normal tt, p, [RenderSection sectionId cache]).

(** [if (cartItemsHtml)]: [undefined], [null] and the empty string are
    falsy. *)
Definition html_truthy (html : option section_value) : bool :=
  match html with
  | Some (SectionHtml f) => negb (String.eqb (markup f) "")
  | Some SectionNull | None => false
  end.

(** [#handleCartUpdate(event)] *)
Definition handleCartUpdate (event : cart_event) : U unit :=
  match event with
  | DiscountUpdateEvent =>
      own ← did sectionId;
      renderSection own false
  | CartUpdateEvent target_is_this sections =>
      if target_is_this then mret tt
      else
        cartItemsHtml ← match sections with
                         | Some m => own ← did sectionId; mret (m !! own)
                         | None => mret None
                         end;
        if html_truthy cartItemsHtml
        then
          own ← did sectionId;
          did (emit (MorphSection own cartItemsHtml)) ;;
          did updateCartQuantitySelectorButtonStates
        else
          own ← did sectionId;
          renderSection own false
  end.

(** [handleDiscountUpdate(event)] *)
Definition handleDiscountUpdate (event : cart_event) : U unit :=
  handleCartUpdate event.

(** ** The listeners on [document] *)

(** [ThemeEvents.cartUpdate], [.discountUpdate], [.quantitySelectorUpdate] *)
Inductive event_type : Type :=
| cartUpdate
| discountUpdate
| quantitySelectorUpdate.

(** A listener: one of the three functions the component holds in its
    fields, or a function of somebody else. *)
Inductive callback : Type :=
| this_handleCartUpdate
| this_handleDiscountUpdate
| this_debouncedOnChange
| foreign (id : nat).

#[export] Instance event_type_eq_dec : EqDecision event_type.
Proof. solve_decision. Defined.

#[export] Instance callback_eq_dec : EqDecision callback.
Proof. solve_decision. Defined.

(** [document.addEventListener(type, listener)]: a listener that is
    already registered for the type is not registered again. *)
Definition addEventListener (type : event_type) (listener : callback)
    (listeners : list (event_type * callback)) : list (event_type * callback) :=
  if bool_decide ((type, listener) ∈ listeners) then listeners
  else listeners ++ [(type, listener)].

(** [document.removeEventListener(type, listener)] *)
Definition removeEventListener (type : event_type) (listener : callback)
    (listeners : list (event_type * callback)) : list (event_type * callback) :=
  filter (λ l, l ≠ (type, listener)) listeners.

(** [connectedCallback()], on the listeners of [document]; the call of
    [super.connectedCallback()] goes to [Component], which is not among
    the sources. *)
Definition connectedCallback (listeners : list (event_type * callback))
  : list (event_type * callback) :=
  addEventListener quantitySelectorUpdate this_debouncedOnChange
    (addEventListener discountUpdate this_handleDiscountUpdate
       (addEventListener cartUpdate this_handleCartUpdate listeners)).

(** [disconnectedCallback()], likewise. *)
Definition disconnectedCallback (listeners : list (event_type * callback))
  : list (event_type * callback) :=
  removeEventListener quantitySelectorUpdate this_debouncedOnChange
    (removeEventListener cartUpdate this_handleCartUpdate listeners).

(** The listeners [document] calls for an event of a type, in the order
    of their registration. *)
Definition listeners_for (type : event_type) (listeners : list (event_type * callback))
  : list callback :=
  (filter (λ l, l.1 = type) listeners).*2.

Definition is_foreign (listener : callback) : Prop :=
  match listener with
  | foreign _ => True
  | _ => False
  end.

(** The dispatch of a cart or discount event on [document]: the
    listeners of the component registered for the type run in turn, and
    what one throws is reported without stopping the next. *)
Definition run_update (m : U unit) (p : page) : page * list update_effect :=
  match m p with
  | (Normal _, p', out) => (p', out)
  | (Throw e, p', out) => (p', out ++ [Did (UncaughtError e)])
  end.

Fixpoint dispatch (called : list callback) (event : cart_event) (p : page)
  : page * list update_effect :=
  match called with
  | [] => (p, [])
  | listener :: rest =>
      match
        match listener with
        | this_handleCartUpdate => run_update (handleCartUpdate event) p
        | this_handleDiscountUpdate => run_update (handleDiscountUpdate event) p
        | this_debouncedOnChange | foreign _ => (p, [])
        end
      with
      | (p1, out1) =>
          match dispatch rest event p1 with
          | (p2, out2) => (p2, out1 ++ out2)
          end
      end
  end.

(** ** Quantity selectors of the document *)

(** What [#updateQuantitySelectors] does to one selector for one item. *)
Definition apply_item (item : cart_item) (selector : selector_component)
  : selector_component :=
  if bool_decide (data_variant_id selector = Some (pretty (variant_id item)))
  then match data_cart_quantity selector with
       | Some _ => with_cart_quantity (pretty (item_quantity item)) selector
       | None => selector
       end
  else selector.

(** And for the items of a cart, in their order. *)
Definition apply_items (items : list cart_item) (selector : selector_component)
  : selector_component :=
  foldl (λ s item, apply_item item s) selector items.

Definition is_UpdateCartQuantity (a : effect) : Prop :=
  match a with
  | UpdateCartQuantity _ => True
  | _ => False
  end.

(** The positions of the cart quantity selectors [updateButtonStates] is
    called on. *)
Definition with_button_states (selector : selector_component) : bool :=
  match tag selector with
  | cart_quantity_selector_component => has_updateButtonStates selector
  | quantity_selector_component => false
  end.

(** ** White space and digits *)



(** ** Statements about the wider component *)

(** The element is one whose section [updateQuantity] adds to the
    request: an [HTMLElement] with a non-empty [data-section-id]. *)
Definition qualifies (s : string) (item : cart_items_element) : Prop :=
  is_HTMLElement item = true ∧ element_sectionId item = Some s ∧ s ≠ "".

Definition is_OnAnimationEnd (a : effect) : Prop :=
  match a with
  | OnAnimationEnd _ => True
  | _ => False
  end.

Definition is_UncaughtError (a : effect) : Prop :=
  match a with
  | UncaughtError _ => True
  | _ => False
  end.

(** The three listeners of the component. *)
Definition own_listeners : list (event_type * callback) :=
  [ (cartUpdate, this_handleCartUpdate);
    (discountUpdate, this_handleDiscountUpdate);
    (quantitySelectorUpdate, this_debouncedOnChange) ].

(** Elements that qualify and elements that do not. *)
Definition cart_items_elements_example : list cart_items_element :=
  [ {| is_HTMLElement := true; element_sectionId := Some "cart-drawer" |};
    {| is_HTMLElement := false; element_sectionId := Some "svg-cart" |};
    {| is_HTMLElement := true; element_sectionId := Some "" |};
    {| is_HTMLElement := true; element_sectionId := None |};
    {| is_HTMLElement := true; element_sectionId := Some "cart-drawer" |} ].

(** The rows of [p'] are the rows of [p] up to [R], position by position. *)
Definition rows_related (R : cart_item_row → cart_item_row → Prop) (p p' : page) : Prop :=
  ∀ j row', cartItemRows p' !! j = Some row' →
    ∃ row, cartItemRows p !! j = Some row ∧ R row row'.

(** Style and classes of a row are untouched. *)
Definition same_look (row row' : cart_item_row) : Prop :=
  style_row_height row' = style_row_height row
  ∧ row_classList row' = row_classList row.

(** A row is as much in the document as before. *)
Definition same_presence (row row' : cart_item_row) : Prop :=
  in_document row' = in_document row.

(** A line whose row has no [data-key]. *)
Definition keyless_row : cart_item_row :=
  {| data_key := None; data_parent_key := None; clientHeight := 80;
     style_row_height := None; row_classList := []; text_component := true;
     in_document := true |}.

Definition keyless_page : page :=
  set_cartItemRows [keyless_row; nested_row; other_row] cart_page.

Definition with_reduced_motion (v : bool) (p : page) : page :=
  {| classList := classList p; dataset_sectionId := dataset_sectionId p;
     quantitySelectors := quantitySelectors p; cartItemRows := cartItemRows p;
     cartTotal := cartTotal p; cartItemError := cartItemError p;
     cartItemErrorContainer := cartItemErrorContainer p;
     cart_items_components := cart_items_components p;
     selector_components := selector_components p;
     location_pathname := location_pathname p; cart_change_url := cart_change_url p;
     reduced_motion := v; in_flight := in_flight p;
     animating := animating p |}.

(** The cart page of a visitor who prefers reduced motion. *)
Definition calm_page : page := with_reduced_motion true cart_page.


(** * Properties *)

Arguments sectionId : simpl never.
Arguments updateQuantity : simpl never.
Arguments handleCartError : simpl never.
Arguments updateQuantitySelectors : simpl never.
Arguments remove_row : simpl never.
Arguments step : simpl never.
Arguments request_effects : simpl never.
Arguments rows_after : simpl never.
Arguments rowsToRemove : simpl never.
Arguments onLineItemRemove : simpl never.
Arguments updateCartQuantitySelectorButtonStates : simpl never.

Ltac run_M :=
  unfold mbind, M_bind, mret, M_ret, read, write, emit, throw, when; simpl.

Lemma truthy_Some (s : string) : truthy (Some s) = true ↔ s ≠ "".
Proof.
  simpl. destruct (String.eqb_spec s ""); simpl; split; congruence.
Qed.

Lemma truthy_true (o : option string) :
  truthy o = true → ∃ s, o = Some s ∧ s ≠ "".
Proof.
  destruct o as [s|]; [|discriminate]. intros H.
  exists s. split; [done|]. by apply truthy_Some.
Qed.

Lemma sectionId_truthy (p : page) (s : string) :
  dataset_sectionId p = Some s → s ≠ "" → sectionId p = (Normal s, p, []).
Proof.
  intros Hs Hne. unfold sectionId. run_M. rewrite Hs.
  apply truthy_Some in Hne. by rewrite Hne.
Qed.

Lemma sectionId_falsy (p : page) :
  truthy (dataset_sectionId p) = false →
  sectionId p = (Throw section_id_missing, p, []).
Proof.
  intros H. unfold sectionId. run_M.
  destruct (dataset_sectionId p) as [s|]; [|done].
  by rewrite H.
Qed.

Lemma updateQuantity_requests (c : config) (p : page) (own : string) :
  dataset_sectionId p = Some own → own ≠ "" →
  updateQuantity c p = (Normal tt, requested c p, request_effects c own p).
Proof.
  intros Hs Hne. unfold updateQuantity, disableCartItems. run_M.
  fold (disable p). rewrite (sectionId_truthy (disable p) own Hs Hne).
  unfold request_effects. by destruct (cartTotal p).
Qed.

Lemma updateQuantity_throws (c : config) (p : page) :
  truthy (dataset_sectionId p) = false →
  updateQuantity c p =
    (Throw section_id_missing, disable p,
     [CreateStartingMarker (marker_of c); ClassListAdd disabled_class]).
Proof.
  intros H. unfold updateQuantity, disableCartItems. run_M.
  fold (disable p). by rewrite (sectionId_falsy (disable p) H).
Qed.

Lemma contains_add_token (t : string) (ts : list string) :
  contains t (add_token t ts) = true.
Proof.
  unfold add_token. destruct (contains t ts) eqn:E; [done|].
  unfold contains. apply bool_decide_eq_true. set_solver.
Qed.

Lemma contains_remove_token (t : string) (ts : list string) :
  contains t (remove_token t ts) = false.
Proof.
  unfold contains, remove_token. apply bool_decide_eq_false.
  rewrite list_elem_of_filter. by intros [H _].
Qed.

Lemma disabled_disable (p : page) : disabled (disable p) = true.
Proof. apply contains_add_token. Qed.

Lemma disabled_enable (p : page) : disabled (enable p) = false.
Proof. apply contains_remove_token. Qed.

(** *** Events without a line *)

Lemma onQuantityChange_no_line (event : detail) (p : page) :
  cartLine event = None ∨ cartLine event = Some 0 →
  onQuantityChange event p = (Normal tt, p, []).
Proof. unfold onQuantityChange. by intros [-> | ->]. Qed.

(** C8: an event whose [cartLine] is falsy, absent or 0, makes
    [#onQuantityChange] return at once: nothing is emitted, so no request
    is sent, and the page, rows included, is the page as it was. *)
Theorem onQuantityChange_falsy_line (event : detail) (p : page) :
  cartLine event = None ∨ cartLine event = Some 0 →
  onQuantityChange event p = (Normal tt, p, [])
  ∧ step (QuantitySelectorUpdate event) p = (p, []).
Proof.
  intros H. pose proof (onQuantityChange_no_line event p H) as E.
  split; [done|]. unfold step, task. by rewrite E.
Qed.

Lemma onQuantityChange_falsy_line_witness :
  (cartLine {| detail_quantity := 2; cartLine := Some 0 |} = None
   ∨ cartLine {| detail_quantity := 2; cartLine := Some 0 |} = Some 0)
  ∧ onQuantityChange {| detail_quantity := 2; cartLine := Some 0 |} cart_page
    = (Normal tt, cart_page, []).
Proof.
  split; [by right|].
  apply (onQuantityChange_falsy_line {| detail_quantity := 2; cartLine := Some 0 |} cart_page).
  by right.
Defined.

(** *** The promise chain *)

(** The chain settles the same way whatever happened before its [catch]:
    an error is logged, then the class goes and the marker is measured. *)
Lemma settle_cases (r : request) (result : fetch_result) (p : page) :
  settle r result p =
    match response_chain r result p with
    | (Normal _, p1, out1) => (Normal tt, enable p1, out1 ++ finally_effects r)
    | (Throw e, p1, out1) =>
        (Normal tt, enable p1, out1 ++ ConsoleError e :: finally_effects r)
    end.
Proof.
  unfold settle, finally_, catch_, enableCartItems. run_M.
  destruct (response_chain r result p) as [[[[]|e] p1] out1]; simpl.
  - done.
  - by rewrite <- app_assoc.
Qed.

Lemma response_chain_errors (r : request) errors sections items (p : page) :
  truthy errors = true →
  response_chain r (cart_response errors sections items) p =
    match handleCartError (request_line r) (JsonObject errors sections items) p with
    | (c, p1, out1) => (c, p1, ResetShimmer :: out1)
    end.
Proof.
  intros Ht. unfold response_chain, then_, onResponseText. run_M. rewrite Ht.
  by destruct (handleCartError _ _ p) as [[c p1] out1].
Qed.

Lemma handleCartError_no_input (line : Z) (parsed : json_response) (p : page) :
  quantityInput p line = None →
  handleCartError line parsed p = (Throw (JsError "Error" "Quantity input not found"), p, []).
Proof.
  unfold quantityInput, handleCartError. run_M. by intros ->.
Qed.

Lemma handleCartError_input (line : Z) errors sections items (input : quantity_input)
    (p : page) :
  quantityInput p line = Some input →
  handleCartError line (JsonObject errors sections items) p =
    match cartItemError p !! line, cartItemErrorContainer p !! line with
    | None, _ =>
        (Throw (JsError "Error" "Cart item error not found"), reverted line input p, [])
    | Some _, None =>
        (Throw (JsError "Error" "Cart item error container not found"),
         reverted line input p, [])
    | Some _, Some tokens =>
        (Normal tt, shown line (default "" errors) tokens (reverted line input p), [])
    end.
Proof.
  unfold quantityInput, handleCartError. run_M. intros ->. simpl.
  fold (reverted line input p).
  destruct (cartItemError p !! line), (cartItemErrorContainer p !! line); done.
Qed.

Lemma at_index_Some {A : Type} (xs : list A) (i : Z) (x : A) :
  at_index xs i = Some x → 0 ≤ i ∧ xs !! Z.to_nat i = Some x.
Proof.
  unfold at_index. destruct (Z.ltb_spec i 0); [done|]. by intros.
Qed.

Lemma quantityInput_reverted (line : Z) (input : quantity_input) (p : page) :
  quantityInput p line = Some input →
  quantityInput (reverted line input p) line = Some (revert input).
Proof.
  unfold quantityInput, reverted. simpl.
  destruct (at_index (quantitySelectors p) (line - 1)) as [sel|] eqn:E; [|done].
  intros _. apply at_index_Some in E as [Hge Hsel].
  unfold at_index. destruct (Z.ltb_spec (line - 1) 0); [lia|].
  rewrite list_lookup_insert_eq; [done|]. by eapply lookup_lt_Some.
Qed.

Lemma not_hidden (tokens : list string) : "hidden" ∉ remove_token "hidden" tokens.
Proof.
  unfold remove_token. rewrite list_elem_of_filter. by intros [H _].
Qed.

(** *** Errors the server reports *)

(** C1, as amended: a response with truthy [errors] is never reconciled,
    no section is morphed and no [CartUpdateEvent] dispatched; and when
    the line has a quantity input, an inline error element and an error
    container, the input goes back to its default value, the element
    reads [errors] and the container is no longer hidden. *)
Theorem cart_error_is_shown (r : request) (errors : string) sections items (p : page) :
  truthy (Some errors) = true →
  ∃ p' out,
    settle r (cart_response (Some errors) sections items) p = (Normal tt, p', out)
    ∧ no_reconciliation out
    ∧ (∀ input old tokens,
         quantityInput p (request_line r) = Some input →
         cartItemError p !! request_line r = Some old →
         cartItemErrorContainer p !! request_line r = Some tokens →
         cart_error_shown (request_line r) errors p p'
         ∧ out = ResetShimmer :: finally_effects r).
Proof.
  intros Ht. rewrite settle_cases, (response_chain_errors _ _ _ _ _ Ht).
  destruct (quantityInput p (request_line r)) as [input|] eqn:Hin.
  - rewrite (handleCartError_input _ _ _ _ input p Hin).
    destruct (cartItemError p !! request_line r) as [old|] eqn:He;
      [destruct (cartItemErrorContainer p !! request_line r) as [tokens|] eqn:Hc|];
      eexists _, _; (split; [reflexivity|]);
      (split; [by repeat constructor|]); intros ??? [= <-]; [|done..].
    intros _ [= <-]. split; [|done].
    unfold cart_error_shown, shown; simpl. repeat split.
    + exists input. split; [done|]. by apply quantityInput_reverted.
    + by rewrite lookup_insert_eq.
    + exists (remove_token "hidden" tokens).
      split; [by rewrite lookup_insert_eq | apply not_hidden].
  - rewrite (handleCartError_no_input _ _ p Hin).
    eexists _, _. split; [reflexivity|]. split; [by repeat constructor|].
    by intros.
Qed.

Lemma cart_error_is_shown_witness :
  truthy (Some sold_out) = true
  ∧ ∃ p' out,
      settle change_line_1 (cart_response (Some sold_out) None None) cart_page
      = (Normal tt, p', out)
      ∧ no_reconciliation out
      ∧ (∀ input old tokens,
           quantityInput cart_page (request_line change_line_1) = Some input →
           cartItemError cart_page !! request_line change_line_1 = Some old →
           cartItemErrorContainer cart_page !! request_line change_line_1 = Some tokens →
           cart_error_shown (request_line change_line_1) sold_out cart_page p'
           ∧ out = ResetShimmer :: finally_effects change_line_1).
Proof.
  split; [reflexivity|].
  apply (cart_error_is_shown change_line_1 sold_out None None cart_page).
  reflexivity.
Defined.

(** C1, as stated, fails on a page where the line has no quantity input:
    [#handleCartError] throws before it shows anything, and the error is
    logged. *)
Lemma cart_error_not_shown_without_input :
  settle change_line_1 (cart_response (Some sold_out) None None) page_without_selectors
  = (Normal tt, page_without_selectors,
     [ResetShimmer; ConsoleError (JsError "Error" "Quantity input not found");
      ClassListRemove disabled_class; MeasureFromMarker "change:user-action"])
  ∧ ¬ every_cart_error_is_shown.
Proof.
  split; [reflexivity|]. intros H.
  destruct (H change_line_1 sold_out None None page_without_selectors
              _ _ _ eq_refl eq_refl) as [[[input [Hin _]] _] _].
  discriminate Hin.
Qed.

(** *** Failures *)

(** C5: whatever goes wrong between [fetch] and the end of the response
    callback, the rejection of [fetch] or of [response.text()], the
    [SyntaxError] of [JSON.parse], the "not found" errors of
    [#handleCartError], reaches the one [catch]: the chain settles
    normally, the error is logged, and after the log only the [finally]
    callback runs, on the page as the error left it. *)
Theorem errors_are_caught_and_logged (r : request) (result : fetch_result) (p : page) :
  (∃ p' out, settle r result p = (Normal tt, p', out))
  ∧ (∀ e p1 out1,
       response_chain r result p = (Throw e, p1, out1) →
       settle r result p
       = (Normal tt, enable p1, out1 ++ ConsoleError e :: finally_effects r))
  ∧ (∀ e, response_chain r (FetchRejects e) p = (Throw e, p, []))
  ∧ (∀ e, response_chain r (FetchResolves (TextRejects e)) p = (Throw e, p, []))
  ∧ (∀ e, response_chain r (FetchResolves (TextResolves (NotJson e))) p
          = (Throw e, p, []))
  ∧ (∀ errors sections items,
       truthy errors = true →
       quantityInput p (request_line r) = None →
       response_chain r (cart_response errors sections items) p
       = (Throw (JsError "Error" "Quantity input not found"), p, [ResetShimmer]))
  ∧ (∀ errors sections items input,
       truthy errors = true →
       quantityInput p (request_line r) = Some input →
       cartItemError p !! request_line r = None →
       response_chain r (cart_response errors sections items) p
       = (Throw (JsError "Error" "Cart item error not found"),
          reverted (request_line r) input p, [ResetShimmer]))
  ∧ (∀ errors sections items input old,
       truthy errors = true →
       quantityInput p (request_line r) = Some input →
       cartItemError p !! request_line r = Some old →
       cartItemErrorContainer p !! request_line r = None →
       response_chain r (cart_response errors sections items) p
       = (Throw (JsError "Error" "Cart item error container not found"),
          reverted (request_line r) input p, [ResetShimmer])).
Proof.
  repeat split.
  - rewrite settle_cases.
    destruct (response_chain r result p) as [[[[]|e] p1] out1]; by eexists _, _.
  - intros e p1 out1 H. by rewrite settle_cases, H.
  - intros ??? Ht Hin.
    by rewrite (response_chain_errors _ _ _ _ _ Ht), (handleCartError_no_input _ _ _ Hin).
  - intros ???? Ht Hin He.
    by rewrite (response_chain_errors _ _ _ _ _ Ht), (handleCartError_input _ _ _ _ _ _ Hin), He.
  - intros ????? Ht Hin He Hc.
    by rewrite (response_chain_errors _ _ _ _ _ Ht),
         (handleCartError_input _ _ _ _ _ _ Hin), He, Hc.
Qed.

Lemma errors_are_caught_and_logged_witness :
  response_chain change_line_1 (FetchRejects network_down) cart_page
  = (Throw network_down, cart_page, [])
  ∧ settle change_line_1 (FetchRejects network_down) cart_page
    = (Normal tt, enable cart_page,
       [] ++ ConsoleError network_down :: finally_effects change_line_1).
Proof.
  split; [reflexivity|].
  apply (errors_are_caught_and_logged change_line_1 (FetchRejects network_down) cart_page).
  reflexivity.
Defined.

(** *** Reconciliation *)

Lemma quiet_ret : quiet (mret tt).
Proof. intros p. exists p, []. by repeat constructor. Qed.

Lemma quiet_bind (m k : M unit) : quiet m → quiet k → quiet (m ;; k).
Proof.
  intros Hm Hk p. destruct (Hm p) as (p1 & out1 & E1 & S1 & R1).
  destruct (Hk p1) as (p2 & out2 & E2 & S2 & R2).
  exists p2, (out1 ++ out2). run_M. rewrite E1, E2.
  repeat split; [congruence | by apply Forall_app].
Qed.

Lemma quiet_for_each {A : Type} (body : nat → A → M unit) (xs : list A) :
  (∀ i x, quiet (body i x)) → ∀ i, quiet (for_each body i xs).
Proof.
  intros Hb. induction xs as [|x xs IH]; intros i; simpl.
  - apply quiet_ret.
  - apply quiet_bind; [apply Hb | apply IH].
Qed.

Lemma quiet_when (c : bool) (m : M unit) : quiet m → quiet (when c m).
Proof. destruct c; [done | intros _; apply quiet_ret]. Qed.

Lemma quiet_update_selector (item : cart_item) (i : nat) (selector : selector_component) :
  quiet (update_selector item i selector).
Proof.
  unfold update_selector. apply quiet_when.
  destruct (data_cart_quantity selector); [|apply quiet_ret].
  apply quiet_bind.
  - intros p. eexists _, []. by repeat constructor.
  - apply quiet_when. intros p. eexists p, [_]. by repeat constructor.
Qed.

Lemma bind_ret {A B : Type} (a : A) (k : A → M B) (p : page) :
  (mret a ≫= k) p = k a p.
Proof. run_M. by destruct (k a p) as [[c p1] out1]. Qed.

Lemma bind_read {A B : Type} (f : page → A) (k : A → M B) (p : page) :
  (read f ≫= k) p = k (f p) p.
Proof. run_M. by destruct (k (f p) p) as [[c p1] out1]. Qed.

Lemma quiet_updateQuantitySelectors errors sections items :
  quiet (updateQuantitySelectors (JsonObject errors sections items)).
Proof.
  intros p. unfold updateQuantitySelectors, get_items. rewrite bind_ret.
  destruct items as [items|]; [|apply quiet_ret].
  apply quiet_for_each. intros _ item q. rewrite bind_read.
  apply quiet_for_each, quiet_update_selector.
Qed.

Lemma quiet_updateCartQuantitySelectorButtonStates :
  quiet updateCartQuantitySelectorButtonStates.
Proof.
  intros p. unfold updateCartQuantitySelectorButtonStates. rewrite bind_read.
  apply quiet_for_each. intros i x. destruct (tag x); [apply quiet_ret|].
  apply quiet_when. intros q. exists q, [UpdateButtonStates i]. by repeat constructor.
Qed.

Lemma response_chain_reconciles (r : request) errors secs items (p : page) (sid : string) :
  truthy errors = false →
  dataset_sectionId p = Some sid → sid ≠ "" →
  ∃ p' before after,
    response_chain r (cart_response errors (Some secs) items) p
    = (Normal tt, p',
       ResetShimmer :: before
       ++ [DispatchCartUpdate sid (newCartItemCount (secs !! sid))
             "cart-items-component" (Some secs);
           MorphSection sid (secs !! sid)]
       ++ after)
    ∧ dataset_sectionId p' = Some sid
    ∧ no_reconciliation before ∧ no_reconciliation after.
Proof.
  intros Ht Hs Hne.
  destruct (quiet_updateQuantitySelectors errors (Some secs) items p)
    as (p2 & before & E2 & S2 & R2).
  destruct (quiet_updateCartQuantitySelectorButtonStates p2)
    as (p3 & after & E3 & S3 & R3).
  rewrite Hs in S2. rewrite S2 in S3.
  exists p3, before, after. split; [|done].
  unfold response_chain, then_, onResponseText. run_M. rewrite Ht.
  rewrite (sectionId_truthy p sid Hs Hne). simpl. rewrite E2.
  repeat (rewrite (sectionId_truthy p2 sid S2 Hne); simpl). rewrite E3.
  by unfold newCartItemCount.
Qed.

(** C3, as amended: when the response has no truthy [errors] but has a
    [sections] object, and the element has its section id, the component
    dispatches a [CartUpdateEvent] and then morphs its section with
    [sections[sectionId]]; the event carries as item count the integer
    [parseInt] reads from the text of the hidden element of that
    fragment, or 0 when the element is absent or empty. *)
Theorem errorless_response_is_reconciled (r : request) errors secs items
    (p : page) (sid : string) :
  truthy errors = false →
  dataset_sectionId p = Some sid → sid ≠ "" →
  (∃ p' before after,
     settle r (cart_response errors (Some secs) items) p
     = (Normal tt, p',
        ResetShimmer :: before
        ++ [DispatchCartUpdate sid (newCartItemCount (secs !! sid))
              "cart-items-component" (Some secs);
            MorphSection sid (secs !! sid)]
        ++ after ++ finally_effects r)
     ∧ no_reconciliation before ∧ no_reconciliation after)
  ∧ (hiddenItemCount (secs !! sid) = None → newCartItemCount (secs !! sid) = Num 0)
  ∧ (hiddenItemCount (secs !! sid) = Some "" → newCartItemCount (secs !! sid) = Num 0)
  ∧ (∀ count, hiddenItemCount (secs !! sid) = Some count → count ≠ "" →
       newCartItemCount (secs !! sid) = parseInt10 count).
Proof.
  intros Ht Hs Hne. split.
  - destruct (response_chain_reconciles r errors secs items p sid Ht Hs Hne)
      as (p' & before & after & E & _ & R1 & R2).
    exists (enable p'), before, after. split; [|done].
    rewrite settle_cases, E. f_equal. simpl. f_equal.
    rewrite <- !app_assoc. done.
  - unfold newCartItemCount. repeat split.
    + by intros ->.
    + by intros ->.
    + intros count -> Hc. apply truthy_Some in Hc. by rewrite Hc.
Qed.

Lemma errorless_response_is_reconciled_witness :
  (truthy None = false ∧ dataset_sectionId cart_page = Some "main-cart" ∧ "main-cart" ≠ "")
  ∧ newCartItemCount
      (({[ "main-cart" := SectionHtml main_cart_section ]} : gmap string section_value)
         !! "main-cart") = parseInt10 "5".
Proof.
  split; [by repeat split|].
  apply (errorless_response_is_reconciled change_line_1 None
           {[ "main-cart" := SectionHtml main_cart_section ]} None cart_page "main-cart");
    done.
Defined.

(** C3, as stated, fails on the answer to a refused request, which has
    neither [errors] nor [sections]: reading [sections[sectionId]] throws
    a [TypeError], it is logged, and nothing is dispatched or morphed. *)
Lemma refusal_is_not_reconciled :
  settle change_line_1 refusal cart_page
  = (Normal tt, cart_page,
     [ResetShimmer; ConsoleError (undefined_property "main-cart");
      ClassListRemove disabled_class; MeasureFromMarker "change:user-action"])
  ∧ ¬ every_errorless_response_is_reconciled.
Proof.
  split; [reflexivity|]. intros H.
  destruct (H change_line_1 None None cart_page _ _ _ eq_refl)
    as (before & after & sid & count & source & sections & html & E).
  assert (no_reconciliation
            (before ++ DispatchCartUpdate sid count source sections
                    :: MorphSection sid html :: after)) as R.
  { rewrite <- E. by repeat constructor. }
  apply Forall_app in R as [_ R]. by inversion R.
Qed.

(** *** Rows *)

Lemma page_eta (p : page) : set_cartItemRows (cartItemRows p) p = p.
Proof. by destruct p. Qed.

Lemma remove_row_cases (i : nat) (p : page) :
  remove_row i p =
    if reduced_motion p
    then (Normal tt, set_cartItemRows (alter detach i (cartItemRows p)) p, [])
    else (Normal tt,
          set_animating (animating p ++ [i])
            (set_cartItemRows (alter start_removing i (cartItemRows p)) p),
          [OnAnimationEnd i]).
Proof.
  unfold remove_row, remove. run_M. by destruct (reduced_motion p).
Qed.

Lemma for_each_remove_row (targets : list nat) (k : nat) (p : page) :
  for_each (λ _ i, remove_row i) k targets p =
    if reduced_motion p
    then (Normal tt,
          set_cartItemRows (rows_after detach (cartItemRows p) targets) p, [])
    else (Normal tt,
          set_animating (animating p ++ targets)
            (set_cartItemRows (rows_after start_removing (cartItemRows p) targets) p),
          OnAnimationEnd <$> targets).
Proof.
  revert k p. induction targets as [|i targets IH]; intros k p.
  - unfold rows_after. simpl. destruct (reduced_motion p) eqn:E.
    + by rewrite page_eta.
    + destruct p; simpl. by rewrite app_nil_r.
  - cbn [for_each]. unfold mbind, M_bind. rewrite remove_row_cases.
    destruct (reduced_motion p) eqn:E; rewrite IH; simpl; rewrite E; [done|].
    by rewrite <- app_assoc.
Qed.

Lemma rows_after_lookup (f : cart_item_row → cart_item_row) (targets : list nat)
    (rows : list cart_item_row) (j : nat) :
  (∀ row, f (f row) = f row) →
  rows_after f rows targets !! j
  = (if bool_decide (j ∈ targets) then f else id) <$> rows !! j.
Proof.
  intros Hf. revert rows. induction targets as [|i targets IH]; intros rows.
  - unfold rows_after. simpl. by destruct (rows !! j).
  - unfold rows_after in *. simpl. rewrite IH.
    destruct (decide (j = i)) as [->|Hne].
    + rewrite list_lookup_alter_eq, (bool_decide_eq_true_2 (i ∈ i :: targets))
        by apply list_elem_of_here.
      destruct (rows !! i) as [row|], (bool_decide (i ∈ targets)); simpl;
        by rewrite ?Hf.
    + rewrite list_lookup_alter_ne by done.
      destruct (bool_decide_reflect (j ∈ targets)) as [Hin|Hout].
      * by rewrite (bool_decide_eq_true_2 (j ∈ i :: targets))
          by (by apply list_elem_of_further).
      * rewrite (bool_decide_eq_false_2 (j ∈ i :: targets)); [done|].
        by intros [?|?]%elem_of_cons.
Qed.

Lemma add_token_idempotent (t : string) (ts : list string) :
  add_token t (add_token t ts) = add_token t ts.
Proof.
  unfold add_token at 1. by rewrite contains_add_token.
Qed.

Lemma detach_idempotent (row : cart_item_row) : detach (detach row) = detach row.
Proof. done. Qed.

Lemma start_removing_idempotent (row : cart_item_row) :
  start_removing (start_removing row) = start_removing row.
Proof.
  unfold start_removing; simpl. by rewrite add_token_idempotent.
Qed.

Lemma removal_idempotent (reduced : bool) (row : cart_item_row) :
  removal reduced (removal reduced row) = removal reduced row.
Proof.
  destruct reduced; [apply detach_idempotent | apply start_removing_idempotent].
Qed.

Lemma elem_of_positions {A : Type} (keep : A → bool) (xs : list A) (k j : nat) :
  j ∈ positions keep k xs ↔ ∃ x, (k ≤ j)%nat ∧ xs !! (j - k)%nat = Some x ∧ keep x = true.
Proof.
  revert k. induction xs as [|x xs IH]; intros k; simpl.
  - split; [by intros ?%elem_of_nil | by intros (? & _ & ? & _)].
  - assert (j ∈ positions keep (S k) xs ↔
            ∃ y, (k ≤ j)%nat ∧ (x :: xs) !! (j - k)%nat = Some y ∧ keep y = true ∧ j ≠ k)
      as Hrest.
    { rewrite IH. split.
      - intros (y & Hle & Hy & Hk). exists y. repeat split; [lia| |done|lia].
        replace (j - k)%nat with (S (j - S k)) by lia. done.
      - intros (y & Hle & Hy & Hk & Hne). exists y. repeat split; [lia| |done].
        replace (j - k)%nat with (S (j - S k)) in Hy by lia. done. }
    destruct (keep x) eqn:Hx.
    + rewrite elem_of_cons, Hrest. split.
      * intros [->|(y & ? & ? & ? & _)]; [|by exists y].
        exists x. rewrite Nat.sub_diag. done.
      * intros (y & Hle & Hy & Hk). destruct (decide (j = k)) as [|Hne]; [by left|].
        right. by exists y.
    + rewrite Hrest. split.
      * intros (y & ? & ? & ? & _). by exists y.
      * intros (y & Hle & Hy & Hk). exists y. repeat split; try done.
        intros ->. rewrite Nat.sub_diag in Hy. simpl in Hy. congruence.
Qed.

Lemma elem_of_rowsToRemove (rows : list cart_item_row) (i j : nat) (target : cart_item_row) :
  j ∈ rowsToRemove rows i target
  ↔ j = i ∨ ∃ row, rows !! j = Some row ∧ data_parent_key row = data_key target.
Proof.
  unfold rowsToRemove. rewrite elem_of_cons, elem_of_positions.
  rewrite Nat.sub_0_r. split.
  - intros [->|(row & _ & Hrow & Hk)]; [by left|].
    right. exists row. split; [done|]. by apply bool_decide_eq_true in Hk.
  - intros [->|(row & Hrow & Hk)]; [by left|].
    right. exists row. repeat split; [lia|done|]. by apply bool_decide_eq_true.
Qed.

Lemma bind_normal {A B : Type} (m : M A) (k : A → M B) (p p1 : page) (a : A) out1 :
  m p = (Normal a, p1, out1) →
  (m ≫= k) p = match k a p1 with (c, p2, out2) => (c, p2, out1 ++ out2) end.
Proof. intros E. unfold mbind, M_bind. by rewrite E. Qed.

Lemma bind_throw {A B : Type} (m : M A) (k : A → M B) (p p1 : page) (e : js_error) out1 :
  m p = (Throw e, p1, out1) → (m ≫= k) p = (Throw e, p1, out1).
Proof. intros E. unfold mbind, M_bind. by rewrite E. Qed.

(** *** A component without section id *)

Lemma onQuantityChange_without_section_id (event : detail) (p : page) :
  truthy (dataset_sectionId p) = false →
  onQuantityChange event p = (Normal tt, p, [])
  ∨ ∃ out, onQuantityChange event p = (Throw section_id_missing, disable p, out).
Proof.
  intros Hs. unfold onQuantityChange.
  destruct (cartLine event) as [line|]; [|by left].
  destruct (line =? 0); [by left|]. right.
  destruct (detail_quantity event =? 0).
  - unfold onLineItemRemove. eexists.
    by rewrite (bind_throw _ _ _ _ _ _ (updateQuantity_throws _ p Hs)).
  - eexists. by rewrite (bind_throw _ _ _ _ _ _ (updateQuantity_throws _ p Hs)).
Qed.

Lemma step_stuck (o : occurrence) (p : page) : stuck p → stuck (step o p).1.
Proof.
  intros (Hs & Hf & Hd). destruct o as [event|k result|row]; unfold step.
  - unfold task.
    destruct (onQuantityChange_without_section_id event p Hs) as [->|[out ->]];
      [done|]. simpl. repeat split; [done..|apply disabled_disable].
  - by rewrite Hf.
  - unfold animation_ended, task, remove, write.
    by destruct (bool_decide (row ∈ animating p)).
Qed.

Lemma run_stuck (os : list occurrence) (p : page) : stuck p → stuck (run os p).1.
Proof.
  revert p. induction os as [|o os IH]; intros p Hp; [done|].
  simpl. pose proof (step_stuck o p Hp) as H1.
  destruct (step o p) as [p1 out1]. specialize (IH p1 H1).
  by destruct (run os p1) as [p2 out2].
Qed.

(** C9: without a [data-section-id] attribute the getter throws
    [Error('Section id missing')]; [updateQuantity] then throws it too,
    after it created its marker and added the class and before any
    [fetch]: the class is on the page it leaves, no request was put in
    flight whose settling would take it off, and, nothing else being in
    flight, the class stays whatever happens next. *)
Theorem updateQuantity_without_section_id (c : config) (p : page) :
  dataset_sectionId p = None →
  sectionId p = (Throw (JsError "Error" "Section id missing"), p, [])
  ∧ ∃ p' out,
      updateQuantity c p = (Throw (JsError "Error" "Section id missing"), p', out)
      ∧ out = [CreateStartingMarker (marker_of c); ClassListAdd disabled_class]
      ∧ fetches out = []
      ∧ disabled p' = true
      ∧ in_flight p' = in_flight p
      ∧ (in_flight p = [] → ∀ os, disabled (run os p').1 = true).
Proof.
  intros H. assert (truthy (dataset_sectionId p) = false) as F by by rewrite H.
  split; [by apply sectionId_falsy|].
  exists (disable p), [CreateStartingMarker (marker_of c); ClassListAdd disabled_class].
  split; [by apply updateQuantity_throws|].
  repeat split; [apply disabled_disable|].
  intros Hf os. apply (run_stuck os (disable p)).
  repeat split; [done..|apply disabled_disable].
Qed.

Lemma updateQuantity_without_section_id_witness :
  dataset_sectionId page_without_section_id = None
  ∧ sectionId page_without_section_id
    = (Throw (JsError "Error" "Section id missing"), page_without_section_id, []).
Proof.
  split; [reflexivity|].
  apply (updateQuantity_without_section_id
           {| line := 1; quantity := 3; action := "change" |} page_without_section_id).
  reflexivity.
Defined.

(** [onLineItemRemove] on an element that has its section id. *)
Lemma onLineItemRemove_requests (line : Z) (p : page) (own : string) :
  dataset_sectionId p = Some own → own ≠ "" →
  onLineItemRemove line p =
    match at_index (cartItemRows p) (line - 1) with
    | None => (Normal tt, requested (clear line) p, request_effects (clear line) own p)
    | Some target =>
        let targets := rowsToRemove (cartItemRows p) (Z.to_nat (line - 1)) target in
        if reduced_motion p
        then (Normal tt,
              set_cartItemRows (rows_after detach (cartItemRows p) targets)
                (requested (clear line) p),
              request_effects (clear line) own p)
        else (Normal tt,
              set_animating (animating p ++ targets)
                (set_cartItemRows (rows_after start_removing (cartItemRows p) targets)
                   (requested (clear line) p)),
              request_effects (clear line) own p ++ (OnAnimationEnd <$> targets))
    end.
Proof.
  intros Hs Hne. unfold onLineItemRemove. fold (clear line).
  rewrite (bind_normal _ _ _ _ _ _ (updateQuantity_requests (clear line) p own Hs Hne)).
  rewrite bind_read.
  change (cartItemRows (requested (clear line) p)) with (cartItemRows p).
  destruct (at_index (cartItemRows p) (line - 1)) as [target|].
  - rewrite for_each_remove_row.
    change (reduced_motion (requested (clear line) p)) with (reduced_motion p).
    destruct (reduced_motion p); [|done]. by rewrite app_nil_r.
  - simpl. by rewrite app_nil_r.
Qed.

Lemma onLineItemRemove_throws (line : Z) (p : page) :
  truthy (dataset_sectionId p) = false →
  onLineItemRemove line p =
    (Throw section_id_missing, disable p,
     [CreateStartingMarker "clear:user-action"; ClassListAdd disabled_class]).
Proof.
  intros H. unfold onLineItemRemove. fold (clear line).
  by rewrite (bind_throw _ _ _ _ _ _ (updateQuantity_throws (clear line) p H)).
Qed.

Lemma removal_target_rowsToRemove (rows : list cart_item_row) (line : Z) (j : nat)
    (target : cart_item_row) :
  at_index rows (line - 1) = Some target →
  removal_target rows line j ↔ j ∈ rowsToRemove rows (Z.to_nat (line - 1)) target.
Proof.
  intros Ht. rewrite elem_of_rowsToRemove. unfold removal_target. rewrite Ht.
  apply at_index_Some in Ht as [Hge _]. split.
  - intros (? & [= <-] & [Hj|Hn]); [left; lia | by right].
  - intros [->|Hn]; exists target; (split; [done|]); [left; lia | by right].
Qed.

Lemma fetches_app (xs ys : list effect) : fetches (xs ++ ys) = fetches xs ++ fetches ys.
Proof. apply filter_app. Qed.

Lemma fetches_OnAnimationEnd (targets : list nat) : fetches (OnAnimationEnd <$> targets) = [].
Proof. induction targets as [|i targets IH]; [done|]. simpl. by rewrite <- IH. Qed.

Lemma fetches_request_effects (c : config) (own : string) (p : page) :
  fetches (request_effects c own p) = [Fetch (cart_change_url p) (body_of c own p)].
Proof. unfold request_effects. by destruct (cartTotal p). Qed.

Lemma request_effects_marker (c : config) (own : string) (p : page) :
  CreateStartingMarker (marker_of c) ∈ request_effects c own p.
Proof. apply list_elem_of_here. Qed.

Lemma request_effects_fetch (c : config) (own : string) (p : page) :
  Fetch (cart_change_url p) (body_of c own p) ∈ request_effects c own p.
Proof.
  unfold request_effects. do 2 apply list_elem_of_further.
  apply elem_of_app. right. apply list_elem_of_here.
Qed.

(** The rows and the awaited animations that [onLineItemRemove] leaves. *)
Lemma onLineItemRemove_rows (line : Z) (p : page) (own : string) :
  dataset_sectionId p = Some own → own ≠ "" →
  ∃ p' out,
    onLineItemRemove line p = (Normal tt, p', out)
    ∧ cartItemRows p' =
        match at_index (cartItemRows p) (line - 1) with
        | Some target =>
            rows_after (removal (reduced_motion p)) (cartItemRows p)
              (rowsToRemove (cartItemRows p) (Z.to_nat (line - 1)) target)
        | None => cartItemRows p
        end
    ∧ animating p' =
        match at_index (cartItemRows p) (line - 1) with
        | Some target =>
            if reduced_motion p then animating p
            else animating p ++ rowsToRemove (cartItemRows p) (Z.to_nat (line - 1)) target
        | None => animating p
        end
    ∧ fetches out = [Fetch (cart_change_url p) (body_of (clear line) own p)].
Proof.
  intros Hs Hne. rewrite (onLineItemRemove_requests line p own Hs Hne).
  destruct (at_index (cartItemRows p) (line - 1)) as [target|];
    [cbn beta iota zeta; destruct (reduced_motion p)|]; eexists _, _;
    (split; [reflexivity|]); (split; [done|]); (split; [done|]);
    rewrite ?fetches_app, ?fetches_OnAnimationEnd, ?app_nil_r;
    apply fetches_request_effects.
Qed.

(** *** Removing a line *)

(** C10, as amended: on an element that has its section id,
    [onLineItemRemove] removes the row at index [line - 1] and every row
    whose [data-parent-key] is that row's [data-key] (two absent keys
    compare equal, as [===] has it), and leaves the other rows as they
    were; under reduced motion the rows leave the document at once,
    otherwise their removal starts and the end of their animation is
    awaited. *)
Theorem removal_takes_nested_rows (line : Z) (p : page) (own : string) :
  dataset_sectionId p = Some own → own ≠ "" →
  ∃ p' out,
    onLineItemRemove line p = (Normal tt, p', out)
    ∧ removes_line_and_nested line p p'
    ∧ (reduced_motion p = false →
       ∀ j, j ∈ animating p' ↔ j ∈ animating p ∨ removal_target (cartItemRows p) line j).
Proof.
  intros Hs Hne.
  destruct (onLineItemRemove_rows line p own Hs Hne)
    as (p' & out & E & Hrows & Hanim & _).
  exists p', out. split; [done|].
  destruct (at_index (cartItemRows p) (line - 1)) as [target|] eqn:Ht.
  - split.
    + intros j row Hrow. rewrite Hrows, rows_after_lookup, Hrow
        by apply removal_idempotent.
      rewrite (removal_target_rowsToRemove _ _ _ _ Ht). split; intros Hj.
      * by rewrite bool_decide_eq_true_2.
      * by rewrite bool_decide_eq_false_2.
    + intros Hm j. rewrite Hanim, Hm, elem_of_app.
      by rewrite (removal_target_rowsToRemove _ _ _ _ Ht).
  - split.
    + intros j row Hrow. rewrite Hrows. split; [|done].
      intros (target & Hc & _). congruence.
    + intros _ j. rewrite Hanim. split; [by left|].
      intros [?|(target & Hc & _)]; [done|congruence].
Qed.

Lemma removal_takes_nested_rows_witness :
  (dataset_sectionId cart_page = Some "main-cart" ∧ "main-cart" ≠ "")
  ∧ ∃ p' out,
      onLineItemRemove 1 cart_page = (Normal tt, p', out)
      ∧ removes_line_and_nested 1 cart_page p'
      ∧ (reduced_motion cart_page = false →
         ∀ j, j ∈ animating p'
              ↔ j ∈ animating cart_page ∨ removal_target (cartItemRows cart_page) 1 j).
Proof.
  split; [done|].
  apply (removal_takes_nested_rows 1 cart_page "main-cart"); done.
Defined.

(** C10, as stated, fails on an element without section id:
    [updateQuantity] throws before [onLineItemRemove] reaches the rows,
    and the row of the line stays as it was. *)
Lemma no_removal_without_section_id :
  onLineItemRemove 1 page_without_section_id
  = (Throw section_id_missing, disable page_without_section_id,
     [CreateStartingMarker "clear:user-action"; ClassListAdd disabled_class])
  ∧ ¬ every_removal_takes_nested_rows.
Proof.
  split; [reflexivity|]. intros H.
  destruct (H 1 page_without_section_id _ _ _ eq_refl 0%nat parent_row eq_refl)
    as [Hremoved _].
  assert (removal_target (cartItemRows page_without_section_id) 1 0) as Ht.
  { exists parent_row. split; [done | by left]. }
  specialize (Hremoved Ht). discriminate Hremoved.
Qed.

(** C2, as amended: on an element that has its section id, an event with
    quantity 0 and a truthy line makes the component create the marker
    of the action ['clear'] and post one request, for that line and
    quantity 0; the row at index [line - 1], if there is one, leaves the
    document at once under reduced motion, and otherwise once its
    removal animation has ended. *)
Theorem zero_quantity_removes_the_line (event : detail) (line : Z) (p : page)
    (own : string) :
  detail_quantity event = 0 → cartLine event = Some line → line ≠ 0 →
  dataset_sectionId p = Some own → own ≠ "" →
  ∃ p' out,
    step (QuantitySelectorUpdate event) p = (p', out)
    ∧ issues_clear_request line out
    ∧ fetches out = [Fetch (cart_change_url p) (body_of (clear line) own p)]
    ∧ line_row_removed line p p'.
Proof.
  intros Hq Hl Hz Hs Hne.
  assert (onQuantityChange event p = onLineItemRemove line p) as E.
  { unfold onQuantityChange. rewrite Hl, Hq.
    by destruct (Z.eqb_spec line 0). }
  unfold step, task. rewrite E, (onLineItemRemove_requests line p own Hs Hne).
  unfold line_row_removed.
  destruct (at_index (cartItemRows p) (line - 1)) as [target|] eqn:Ht.
  - pose proof (at_index_Some _ _ _ Ht) as [Hge Hrow].
    set (j := Z.to_nat (line - 1)) in *.
    set (targets := rowsToRemove (cartItemRows p) j target).
    assert (j ∈ targets) as Hin by apply list_elem_of_here.
    cbn beta iota zeta. destruct (reduced_motion p) eqn:Hm; eexists _, _;
      (split; [reflexivity|]); (split; [|split]).
    + split; [apply (request_effects_marker (clear line))|].
      eexists _, _. split; [apply (request_effects_fetch (clear line))|done].
    + apply fetches_request_effects.
    + intros row [= <-]. exists (detach target). split; [|done]. simpl.
      rewrite rows_after_lookup, Hrow by apply detach_idempotent.
      by rewrite bool_decide_eq_true_2.
    + split; [apply elem_of_app; left; apply (request_effects_marker (clear line))|].
      eexists _, _. split; [apply elem_of_app; left; apply (request_effects_fetch (clear line))|done].
    + by rewrite fetches_app, fetches_request_effects, fetches_OnAnimationEnd.
    + intros row [= <-]. unfold step, animation_ended. simpl. fold targets.
      assert (j ∈ animating p ++ targets) as Ha
        by (apply elem_of_app; by right).
      split; [done|]. rewrite (bool_decide_eq_true_2 _ Ha).
      exists (detach (start_removing target)). split; [|done]. simpl.
      rewrite list_lookup_alter_eq, rows_after_lookup, Hrow
        by apply start_removing_idempotent.
      by rewrite bool_decide_eq_true_2.
  - eexists _, _. split; [reflexivity|]. split; [|split].
    + split; [apply (request_effects_marker (clear line))|].
      eexists _, _. split; [apply (request_effects_fetch (clear line))|done].
    + apply fetches_request_effects.
    + done.
Qed.

Lemma zero_quantity_removes_the_line_witness :
  (detail_quantity remove_line_1 = 0 ∧ cartLine remove_line_1 = Some 1 ∧ 1 ≠ 0
   ∧ dataset_sectionId cart_page = Some "main-cart" ∧ "main-cart" ≠ "")
  ∧ ∃ p' out,
      step (QuantitySelectorUpdate remove_line_1) cart_page = (p', out)
      ∧ issues_clear_request 1 out
      ∧ fetches out
        = [Fetch (cart_change_url cart_page) (body_of (clear 1) "main-cart" cart_page)]
      ∧ line_row_removed 1 cart_page p'.
Proof.
  split; [done|].
  apply (zero_quantity_removes_the_line remove_line_1 1 cart_page "main-cart"); done.
Defined.

(** C2, as stated, fails on an element without section id: the getter
    throws in [updateQuantity], no request is posted and no row is
    touched. *)
Lemma no_request_without_section_id :
  step (QuantitySelectorUpdate remove_line_1) page_without_section_id
  = (disable page_without_section_id,
     [CreateStartingMarker "clear:user-action"; ClassListAdd disabled_class;
      UncaughtError section_id_missing])
  ∧ ¬ every_zero_quantity_removes_the_line.
Proof.
  split; [reflexivity|]. intros H.
  destruct (H remove_line_1 1 page_without_section_id _ _ eq_refl eq_refl
              ltac:(done) eq_refl) as [[_ (url & body & Hin & _)] _].
  repeat (apply elem_of_cons in Hin as [Hin|Hin]; [discriminate Hin|]).
  by apply elem_of_nil in Hin.
Qed.

(** *** Lines are counted from 1 *)

Lemma onQuantityChange_requests (event : detail) (line : Z) (p : page) (own : string) :
  cartLine event = Some line → line ≠ 0 → detail_quantity event ≠ 0 →
  dataset_sectionId p = Some own → own ≠ "" →
  onQuantityChange event p =
    (Normal tt, requested (change_of event line) p,
     request_effects (change_of event line) own p ++ row_shimmer p line).
Proof.
  intros Hl Hz Hq Hs Hne. unfold onQuantityChange. rewrite Hl.
  destruct (Z.eqb_spec line 0); [done|].
  destruct (Z.eqb_spec (detail_quantity event) 0); [done|].
  fold (change_of event line).
  rewrite (bind_normal _ _ _ _ _ _
             (updateQuantity_requests (change_of event line) p own Hs Hne)).
  rewrite bind_read.
  change (cartItemRows (requested (change_of event line) p)) with (cartItemRows p).
  unfold row_shimmer.
  destruct (at_index (cartItemRows p) (line - 1)) as [row|]; [|done].
  by destruct (text_component row).
Qed.

Lemma onQuantityChange_throws (event : detail) (line : Z) (p : page) :
  cartLine event = Some line → line ≠ 0 → detail_quantity event ≠ 0 →
  truthy (dataset_sectionId p) = false →
  onQuantityChange event p =
    (Throw section_id_missing, disable p,
     [CreateStartingMarker "change:user-action"; ClassListAdd disabled_class]).
Proof.
  intros Hl Hz Hq Hs. unfold onQuantityChange. rewrite Hl.
  destruct (Z.eqb_spec line 0); [done|].
  destruct (Z.eqb_spec (detail_quantity event) 0); [done|].
  fold (change_of event line).
  by rewrite (bind_throw _ _ _ _ _ _ (updateQuantity_throws (change_of event line) p Hs)).
Qed.

Lemma section_id_cases (p : page) :
  truthy (dataset_sectionId p) = false
  ∨ ∃ own, dataset_sectionId p = Some own ∧ own ≠ "".
Proof.
  destruct (truthy (dataset_sectionId p)) eqn:E; [|by left].
  right. by apply truthy_true.
Qed.

Lemma ShimmerRowText_row_shimmer (p : page) (line : Z) (j : nat) :
  ShimmerRowText j ∈ row_shimmer p line →
  Z.of_nat j = line - 1
  ∧ ∃ row, cartItemRows p !! j = Some row ∧ text_component row = true.
Proof.
  unfold row_shimmer.
  destruct (at_index (cartItemRows p) (line - 1)) as [row|] eqn:E;
    [|by intros ?%elem_of_nil].
  apply at_index_Some in E as [Hge Hrow].
  destruct (text_component row) eqn:Ht; [|by intros ?%elem_of_nil].
  intros [= ->]%list_elem_of_singleton. split; [lia|]. by exists row.
Qed.

Lemma ShimmerRowText_request_effects (c : config) (own : string) (p : page) (j : nat) :
  ShimmerRowText j ∉ request_effects c own p.
Proof.
  unfold request_effects. destruct (cartTotal p); simpl; intros H;
    repeat (apply elem_of_cons in H as [H|H]; [discriminate H|]);
    by apply elem_of_nil in H.
Qed.

Lemma handleCartError_quantitySelectors (line : Z) (parsed : json_response)
    (p p' : page) c out :
  handleCartError line parsed p = (c, p', out) →
  quantitySelectors p' =
    match quantityInput p line with
    | Some input =>
        <[Z.to_nat (line - 1) := {| selector_input := Some (revert input) |}]>
          (quantitySelectors p)
    | None => quantitySelectors p
    end.
Proof.
  unfold quantityInput, handleCartError. run_M.
  destruct (at_index (quantitySelectors p) (line - 1)) as [[[input|]]|];
    simpl; [|by intros [= _ <- _]..].
  destruct (cartItemError p !! line), (cartItemErrorContainer p !! line);
    try (by intros [= _ <- _]).
  destruct parsed; simpl; by intros [= _ <- _].
Qed.

(** C7: a line number [n] stands for position [n - 1] of the ref arrays.
    A quantity change shimmers the text of the row at [n - 1] of
    [cartItemRows] and of no other row; a removal changes only rows that
    are targets of the removal of [n], and puts the row at [n - 1]
    through it; a cart error changes no quantity selector but the one at
    [n - 1] of [quantitySelectors], whose input it reverts. *)
Theorem lines_are_one_indexed (n : Z) (p : page) :
  (∀ event c p' out,
     cartLine event = Some n → n ≠ 0 → detail_quantity event ≠ 0 →
     onQuantityChange event p = (c, p', out) →
     (∀ j, ShimmerRowText j ∈ out →
        Z.of_nat j = n - 1
        ∧ ∃ row, cartItemRows p !! j = Some row ∧ text_component row = true)
     ∧ (c = Normal tt →
        ∀ row, at_index (cartItemRows p) (n - 1) = Some row →
          text_component row = true →
          ShimmerRowText (Z.to_nat (n - 1)) ∈ out))
  ∧ (∀ c p' out,
       onLineItemRemove n p = (c, p', out) →
       (∀ j, cartItemRows p' !! j ≠ cartItemRows p !! j →
          removal_target (cartItemRows p) n j)
       ∧ (c = Normal tt →
          ∀ row, at_index (cartItemRows p) (n - 1) = Some row →
            cartItemRows p' !! Z.to_nat (n - 1)
            = Some (removal (reduced_motion p) row)))
  ∧ (∀ parsed c p' out,
       handleCartError n parsed p = (c, p', out) →
       (∀ i, Z.of_nat i ≠ n - 1 →
          quantitySelectors p' !! i = quantitySelectors p !! i)
       ∧ (∀ input,
            at_index (quantitySelectors p) (n - 1) ≫= selector_input = Some input →
            at_index (quantitySelectors p') (n - 1) ≫= selector_input
            = Some (revert input))).
Proof.
  split; [|split].
  - intros event c p' out Hl Hz Hq E.
    destruct (section_id_cases p) as [Hs|(own & Hs & Hne)].
    + rewrite (onQuantityChange_throws event n p Hl Hz Hq Hs) in E.
      injection E as <- <- <-. split; [|done].
      intros j H. repeat (apply elem_of_cons in H as [H|H]; [discriminate H|]).
      by apply elem_of_nil in H.
    + rewrite (onQuantityChange_requests event n p own Hl Hz Hq Hs Hne) in E.
      assert (out = request_effects (change_of event n) own p ++ row_shimmer p n)
        as -> by (by injection E as <- <- <-).
      split.
      * intros j [H|H]%elem_of_app; [|by apply ShimmerRowText_row_shimmer].
        by apply ShimmerRowText_request_effects in H.
      * intros _ row Hrow Ht. apply elem_of_app. right.
        unfold row_shimmer. rewrite Hrow, Ht. apply list_elem_of_here.
  - intros c p' out E.
    destruct (section_id_cases p) as [Hs|(own & Hs & Hne)].
    + rewrite (onLineItemRemove_throws n p Hs) in E.
      injection E as <- <- <-. by split.
    + destruct (onLineItemRemove_rows n p own Hs Hne)
        as (q & out' & E' & Hrows & _ & _).
      rewrite E in E'. injection E' as -> <- <-. split.
      * intros j Hj.
        destruct (at_index (cartItemRows p) (n - 1)) as [target|] eqn:Ht;
          [|by rewrite Hrows in Hj].
        apply (removal_target_rowsToRemove _ _ _ _ Ht).
        destruct (decide (j ∈ rowsToRemove (cartItemRows p) (Z.to_nat (n - 1)) target))
          as [|Hout]; [done|].
        exfalso. apply Hj.
        rewrite Hrows, rows_after_lookup by apply removal_idempotent.
        rewrite bool_decide_eq_false_2 by done. by destruct (cartItemRows p !! j).
      * intros _ row Hrow. pose proof (at_index_Some _ _ _ Hrow) as [Hge Hj].
        rewrite Hrows, Hrow, rows_after_lookup, Hj by apply removal_idempotent.
        rewrite bool_decide_eq_true_2; [done|]. apply list_elem_of_here.
  - intros parsed c p' out E.
    rewrite (handleCartError_quantitySelectors n parsed p p' c out E).
    unfold quantityInput. split.
    + intros i Hi.
      destruct (at_index (quantitySelectors p) (n - 1) ≫= selector_input) as [input|] eqn:Hin;
        [|done].
      destruct (at_index (quantitySelectors p) (n - 1)) as [sel|] eqn:Hsel; [|done].
      apply at_index_Some in Hsel as [Hge _].
      apply list_lookup_insert_ne. lia.
    + intros input Hin. rewrite Hin. by apply quantityInput_reverted.
Qed.

Lemma lines_are_one_indexed_witness :
  (cartLine change_line_1_to_3 = Some 1 ∧ 1 ≠ 0 ∧ detail_quantity change_line_1_to_3 ≠ 0)
  ∧ (∀ j, ShimmerRowText j
          ∈ request_effects (change_of change_line_1_to_3 1) "main-cart" cart_page
            ++ row_shimmer cart_page 1 →
       Z.of_nat j = 1 - 1
       ∧ ∃ row, cartItemRows cart_page !! j = Some row ∧ text_component row = true).
Proof.
  split; [done|].
  apply (proj1 (lines_are_one_indexed 1 cart_page) change_line_1_to_3 (Normal tt)
           (requested (change_of change_line_1_to_3 1) cart_page)); done.
Defined.

(** *** Debouncing *)

Lemma default_last_cons {A : Type} (a b : A) (l : list A) :
  default a (last (b :: l)) = default b (last l).
Proof.
  destruct l as [|c l]; [done|].
  change (last (b :: c :: l)) with (last (c :: l)).
  destruct (last (c :: l)) eqn:E; [done|]. by apply last_None in E.
Qed.

Lemma calls_burst {A : Type} (wait : Z) (arrivals : list (Z * A)) (previous : Z) (a : A) :
  burst wait previous arrivals →
  calls wait arrivals (Some (previous + wait, a)) = [default a (last (arrivals.*2))].
Proof.
  revert previous a. induction arrivals as [|[now b] rest IH]; intros previous a; simpl.
  - done.
  - intros [Hgap Hrest]. destruct (Z.leb_spec (previous + wait) now); [lia|].
    simpl. unfold debounced. rewrite (IH now b Hrest).
    by rewrite default_last_cons.
Qed.

Lemma step_fetches (event : detail) (p p' : page) out :
  step (QuantitySelectorUpdate event) p = (p', out) →
  fetches out = []
  ∨ ∃ line url body,
      cartLine event = Some line
      ∧ fetches out = [Fetch url body]
      ∧ body_line body = line
      ∧ body_quantity body = detail_quantity event.
Proof.
  unfold step, task.
  destruct (cartLine event) as [line|] eqn:Hl.
  2: { rewrite (onQuantityChange_no_line event p (or_introl Hl)).
       intros [= _ <-]. by left. }
  destruct (decide (line = 0)) as [->|Hz].
  { rewrite (onQuantityChange_no_line event p (or_intror Hl)).
    intros [= _ <-]. by left. }
  destruct (decide (detail_quantity event = 0)) as [Hq|Hq].
  - assert (onQuantityChange event p = onLineItemRemove line p) as ->.
    { unfold onQuantityChange. rewrite Hl, Hq. by destruct (Z.eqb_spec line 0). }
    destruct (section_id_cases p) as [Hs|(own & Hs & Hne)].
    + rewrite (onLineItemRemove_throws line p Hs). intros [= _ <-]. by left.
    + destruct (onLineItemRemove_rows line p own Hs Hne) as (q & out' & -> & _ & _ & Hf).
      intros [= _ <-]. right.
      exists line, (cart_change_url p), (body_of (clear line) own p).
      split; [done|]. split; [done|]. by rewrite Hq.
  - destruct (section_id_cases p) as [Hs|(own & Hs & Hne)].
    + rewrite (onQuantityChange_throws event line p Hl Hz Hq Hs). intros [= _ <-]. by left.
    + rewrite (onQuantityChange_requests event line p own Hl Hz Hq Hs Hne).
      intros E. right.
      exists line, (cart_change_url p), (body_of (change_of event line) own p).
      split; [done|]. split; [|done].
      assert (out = request_effects (change_of event line) own p ++ row_shimmer p line)
        as -> by (by injection E as _ <-).
      rewrite fetches_app, fetches_request_effects. unfold row_shimmer.
      destruct (at_index (cartItemRows p) (line - 1)) as [row|]; [|done].
      by destruct (text_component row).
Qed.

(** C6: the listener of [quantitySelectorUpdate] is the wrapper
    [debounce] makes of [#onQuantityChange] with a wait of 300 ms.  Of a
    burst of events, each less than 300 ms after the one before, only the
    last reaches [#onQuantityChange], once; the burst so leads to at most
    one request, and that request carries the line and the quantity of
    the last event. *)
Theorem burst_is_debounced (first : Z * detail) (rest : list (Z * detail)) (p : page) :
  burst 300 first.1 rest →
  debouncedOnChange (first :: rest) = [QuantitySelectorUpdate (last_event first rest)]
  ∧ ∀ p' out,
      run (debouncedOnChange (first :: rest)) p = (p', out) →
      (length (fetches out) ≤ 1)%nat
      ∧ ∀ a, a ∈ fetches out →
          ∃ line url body,
            a = Fetch url body
            ∧ cartLine (last_event first rest) = Some line
            ∧ body_line body = line
            ∧ body_quantity body = detail_quantity (last_event first rest).
Proof.
  intros Hb.
  assert (debouncedOnChange (first :: rest)
          = [QuantitySelectorUpdate (last_event first rest)]) as E.
  { unfold debouncedOnChange. destruct first as [t0 a0]. simpl.
    unfold debounced. by rewrite (calls_burst 300 rest t0 a0 Hb). }
  split; [done|]. intros p' out. rewrite E. simpl.
  destruct (step (QuantitySelectorUpdate (last_event first rest)) p) as [p1 out1] eqn:Hs.
  intros [= <- <-]. rewrite app_nil_r.
  destruct (step_fetches _ _ _ _ Hs) as [->|(line & url & body & Hl & -> & Hbl & Hbq)].
  - split; [simpl; lia|]. by intros a ?%elem_of_nil.
  - split; [simpl; lia|]. intros a ->%list_elem_of_singleton.
    by exists line, url, body.
Qed.

Lemma burst_is_debounced_witness :
  burst 300 (1000, {| detail_quantity := 2; cartLine := Some 2 |}).1 (tail three_clicks)
  ∧ debouncedOnChange three_clicks
    = [QuantitySelectorUpdate {| detail_quantity := 4; cartLine := Some 2 |}].
Proof.
  split; [simpl; lia|].
  apply (burst_is_debounced (1000, {| detail_quantity := 2; cartLine := Some 2 |})
           (tail three_clicks) cart_page).
  simpl; lia.
Defined.

(** *** The requests in flight *)

Lemma keeps_ret {A : Type} (a : A) : keeps_in_flight (mret a).
Proof. by intros p c p' out [= _ <- _]. Qed.

Lemma keeps_throw {A : Type} (e : js_error) : keeps_in_flight (@throw A e).
Proof. by intros p c p' out [= _ <- _]. Qed.

Lemma keeps_emit (a : effect) : keeps_in_flight (emit a).
Proof. by intros p c p' out [= _ <- _]. Qed.

Lemma keeps_read {A : Type} (f : page → A) : keeps_in_flight (read f).
Proof. by intros p c p' out [= _ <- _]. Qed.

Lemma keeps_write (f : page → page) :
  (∀ p, in_flight (f p) = in_flight p) → keeps_in_flight (write f).
Proof. intros Hf p c p' out [= _ <- _]. apply Hf. Qed.

Lemma keeps_bind {A B : Type} (m : M A) (k : A → M B) :
  keeps_in_flight m → (∀ a, keeps_in_flight (k a)) → keeps_in_flight (m ≫= k).
Proof.
  intros Hm Hk p c p' out. unfold mbind, M_bind.
  destruct (m p) as [[[a|e] p1] out1] eqn:E1.
  - destruct (k a p1) as [[c2 p2] out2] eqn:E2. intros [= _ <- _].
    rewrite (Hk a _ _ _ _ E2). by apply (Hm _ _ _ _ E1).
  - intros [= _ <- _]. by apply (Hm _ _ _ _ E1).
Qed.

Lemma keeps_catch {A : Type} (m : M A) (h : js_error → M A) :
  keeps_in_flight m → (∀ e, keeps_in_flight (h e)) → keeps_in_flight (catch_ m h).
Proof.
  intros Hm Hh p c p' out. unfold catch_.
  destruct (m p) as [[[a|e] p1] out1] eqn:E1.
  - intros [= _ <- _]. by apply (Hm _ _ _ _ E1).
  - destruct (h e p1) as [[c2 p2] out2] eqn:E2. intros [= _ <- _].
    rewrite (Hh e _ _ _ _ E2). by apply (Hm _ _ _ _ E1).
Qed.

Lemma keeps_finally {A : Type} (m : M A) (k : M unit) :
  keeps_in_flight m → keeps_in_flight k → keeps_in_flight (finally_ m k).
Proof.
  intros Hm Hk p c p' out. unfold finally_.
  destruct (m p) as [[c1 p1] out1] eqn:E1.
  destruct (k p1) as [[[[]|e] p2] out2] eqn:E2; intros [= _ <- _];
    rewrite (Hk _ _ _ _ E2); by apply (Hm _ _ _ _ E1).
Qed.

Lemma keeps_for_each {A : Type} (body : nat → A → M unit) (xs : list A) :
  (∀ i x, keeps_in_flight (body i x)) → ∀ i, keeps_in_flight (for_each body i xs).
Proof.
  intros Hb. induction xs as [|x xs IH]; intros i; simpl.
  - apply keeps_ret.
  - apply keeps_bind; [apply Hb | intros _; apply IH].
Qed.

(** Decompose a computation along its binds, tests and loops. *)
Ltac keeps :=
  repeat first
    [ apply keeps_ret | apply keeps_throw | apply keeps_emit | apply keeps_read
    | apply keeps_write; by intros []
    | apply keeps_bind; [|intros ?]
    | apply keeps_for_each; intros ? ?
    | apply keeps_catch; [|intros ?]
    | apply keeps_finally
    | match goal with
      | |- keeps_in_flight (when ?c _) => unfold when; destruct c
      | |- keeps_in_flight (if ?c then _ else _) => destruct c
      | |- keeps_in_flight (match ?x with _ => _ end) => destruct x
      end ].

Lemma keeps_settle (r : request) (result : fetch_result) : keeps_in_flight (settle r result).
Proof.
  unfold settle, response_chain, then_, onResponseText, fetch, text, JSON_parse,
    enableCartItems, handleCartError, updateQuantitySelectors,
    updateCartQuantitySelectorButtonStates, update_selector, sectionId,
    get_errors, get_sections, get_items, member.
  keeps.
Qed.

Lemma settle_enables (r : request) (result : fetch_result) (p : page) :
  ∃ p' out, settle r result p = (Normal tt, p', out) ∧ disabled p' = false.
Proof.
  rewrite settle_cases.
  destruct (response_chain r result p) as [[[[]|e] p1] out1]; eexists _, _;
    (split; [reflexivity | apply disabled_enable]).
Qed.

Lemma updateQuantity_cases (c : config) (p : page) :
  updateQuantity c p
  = (Throw section_id_missing, disable p,
     [CreateStartingMarker (marker_of c); ClassListAdd disabled_class])
  ∨ ∃ own, updateQuantity c p = (Normal tt, requested c p, request_effects c own p).
Proof.
  destruct (section_id_cases p) as [Hs|(own & Hs & Hne)].
  - left. by apply updateQuantity_throws.
  - right. exists own. by apply updateQuantity_requests.
Qed.

(** *** Disabling the component *)

(** C4, as amended: [updateQuantity] adds the class
    ['cart-items-disabled'] before it calls [fetch], and whatever the
    outcome of a request, the class is off once the request has settled;
    so a request that is alone in flight has the component disabled
    from its start until it settles, and enabled afterwards.  (When
    requests overlap, the first to settle enables the component.) *)
Theorem disabled_while_request_in_flight (c : config) (p : page) :
  (∀ r p' out,
     updateQuantity c p = (r, p', out) →
     disabled p' = true
     ∧ ∀ before url body after,
         out = before ++ Fetch url body :: after →
         ClassListAdd disabled_class ∈ before)
  ∧ (∀ r result, ∃ p' out, settle r result p = (Normal tt, p', out) ∧ disabled p' = false)
  ∧ (∀ own result,
       dataset_sectionId p = Some own → own ≠ "" → in_flight p = [] →
       ∃ p1 out1 p2 out2,
         updateQuantity c p = (Normal tt, p1, out1)
         ∧ disabled p1 = true ∧ in_flight p1 = [request_of c]
         ∧ step (Settles 0 result) p1 = (p2, out2)
         ∧ disabled p2 = false ∧ in_flight p2 = []).
Proof.
  split; [|split].
  - intros r p' out E.
    destruct (updateQuantity_cases c p) as [E'|[own E']]; rewrite E' in E.
    + assert (p' = disable p
              ∧ out = [CreateStartingMarker (marker_of c); ClassListAdd disabled_class])
        as [-> ->] by (by injection E as _ <- <-).
      split; [apply disabled_disable|].
      by intros [|a [|b [|d before]]] url body after.
    + assert (p' = requested c p ∧ out = request_effects c own p)
        as [-> ->] by (by injection E as _ <- <-).
      split; [apply disabled_disable|].
      unfold request_effects.
      intros [|a [|b before]] url body after; [done..|].
      intros [= _ <- _]. apply list_elem_of_further, list_elem_of_here.
  - intros r result. apply settle_enables.
  - intros own result Hs Hne Hf.
    destruct (settle_enables (request_of c) result
                (set_in_flight [] (requested c p))) as (p2 & out2 & E2 & Hd2).
    exists (requested c p), (request_effects c own p), p2, out2.
    split; [by apply updateQuantity_requests|].
    split; [apply disabled_disable|].
    assert (in_flight (requested c p) = [request_of c]) as Hr.
    { unfold requested. simpl. by rewrite Hf. }
    split; [done|]. unfold step, task. rewrite Hr. simpl. rewrite E2.
    repeat split; [done|]. by rewrite (keeps_settle _ _ _ _ _ _ E2).
Qed.

Lemma disabled_while_request_in_flight_witness :
  (dataset_sectionId cart_page = Some "main-cart" ∧ "main-cart" ≠ ""
   ∧ in_flight cart_page = [])
  ∧ ∃ p1 out1 p2 out2,
      updateQuantity (change_of change_line_1_to_3 1) cart_page = (Normal tt, p1, out1)
      ∧ disabled p1 = true
      ∧ in_flight p1 = [request_of (change_of change_line_1_to_3 1)]
      ∧ step (Settles 0 updated_cart) p1 = (p2, out2)
      ∧ disabled p2 = false ∧ in_flight p2 = [].
Proof.
  split; [done|].
  apply (proj2 (proj2 (disabled_while_request_in_flight
                         (change_of change_line_1_to_3 1) cart_page))
           "main-cart" updated_cart); done.
Defined.

(** C4, as stated, fails when two requests overlap: the first answer
    takes the class off while the second request is still in flight. *)
Lemma enabled_with_request_in_flight :
  in_flight (run overlapping_requests cart_page).1
  = [{| request_line := 3; request_marker := "change:user-action" |}]
  ∧ disabled (run overlapping_requests cart_page).1 = false
  ∧ ¬ disabled_exactly_while_in_flight.
Proof.
  assert (in_flight (run overlapping_requests cart_page).1
          = [{| request_line := 3; request_marker := "change:user-action" |}]) as Hf
    by (vm_compute; reflexivity).
  assert (disabled (run overlapping_requests cart_page).1 = false) as Hd
    by (vm_compute; reflexivity).
  split; [done|]. split; [done|]. intros H.
  destruct (H cart_page overlapping_requests) as [_ Hback]; [by split|].
  rewrite Hf, Hd in Hback. by discriminate Hback.
Qed.

(** * Further properties *)

(** ** The request *)

Lemma set_add_elem (x s : string) (set : list string) :
  s ∈ set_add x set ↔ s = x ∨ s ∈ set.
Proof.
  unfold set_add. destruct (bool_decide_reflect (x ∈ set)) as [Hin|Hout].
  - split; [by right | by intros [->|?]].
  - rewrite elem_of_app, list_elem_of_singleton. tauto.
Qed.

Lemma set_add_NoDup (x : string) (set : list string) : NoDup set → NoDup (set_add x set).
Proof.
  intros Hnd. unfold set_add. destruct (bool_decide_reflect (x ∈ set)) as [Hin|Hout]; [done|].
  apply NoDup_app. split; [done|]. split; [|apply NoDup_singleton].
  intros y Hy ->%list_elem_of_singleton. done.
Qed.

Lemma set_add_head (x first : string) (rest : list string) :
  ∃ rest', set_add x (first :: rest) = first :: rest'.
Proof. unfold set_add. destruct (bool_decide _); by eexists. Qed.

(** The loop of [updateQuantity] over the elements, from any set. *)
Lemma sectionsToUpdate_from (items : list cart_items_element) (first : string)
    (rest : list string) :
  NoDup (first :: rest) →
  let result :=
    foldl (λ set item,
             match element_sectionId item with
             | Some s =>
                 if is_HTMLElement item && truthy (element_sectionId item)
                 then set_add s set else set
             | None => set
             end) (first :: rest) items in
  (∃ rest', result = first :: rest')
  ∧ NoDup result
  ∧ ∀ s, s ∈ result ↔ s ∈ first :: rest ∨ ∃ item, item ∈ items ∧ qualifies s item.
Proof.
  revert rest. induction items as [|item items IH]; intros rest Hnd; simpl.
  - split; [by eexists|]. split; [done|]. intros s. split; [by left|].
    intros [?|(item & []%elem_of_nil & _)]. done.
  - assert (∃ rest1,
              match element_sectionId item with
              | Some s =>
                  if is_HTMLElement item && truthy (element_sectionId item)
                  then set_add s (first :: rest) else first :: rest
              | None => first :: rest
              end = first :: rest1
              ∧ NoDup (first :: rest1)
              ∧ ∀ s, s ∈ first :: rest1 ↔ s ∈ first :: rest ∨ qualifies s item)
      as (rest1 & -> & Hnd1 & Hin1).
    { unfold qualifies. destruct (element_sectionId item) as [s0|] eqn:Hs.
      - destruct (is_HTMLElement item) eqn:Hh; simpl.
        + destruct (String.eqb_spec s0 "") as [->|Hne]; simpl.
          * exists rest. split; [done|]. split; [done|]. intros s. split; [by left|].
            intros [?|(_ & [= <-] & ?)]; done.
          * destruct (set_add_head s0 first rest) as [rest1 E]. exists rest1.
            split; [done|]. rewrite <- E. split; [by apply set_add_NoDup|].
            intros s. rewrite set_add_elem. split.
            -- intros [->|?]; [by right | by left].
            -- intros [?|(_ & [= <-] & _)]; [by right | by left].
        + exists rest. split; [done|]. split; [done|]. intros s. split; [by left|].
          intros [?|(? & _)]; done.
      - exists rest. split; [done|]. split; [done|]. intros s. split; [by left|].
        intros [?|(_ & ? & _)]; done. }
    destruct (IH rest1 Hnd1) as (Hhead & Hnd2 & Hin2).
    split; [done|]. split; [done|]. intros s. rewrite Hin2, Hin1. split.
    + intros [[?|?]|(it & ? & ?)]; [by left| |].
      * right. exists item. split; [apply list_elem_of_here | done].
      * right. exists it. split; [by apply list_elem_of_further | done].
    + intros [?|(it & [->|?]%elem_of_cons & ?)]; [by left; left | by left; right|].
      right. by exists it.
Qed.

(** X1: the sections [updateQuantity] asks for start with the section of
    the component, name no section twice, and are, besides its own, the
    non-empty section ids of the [cart-items-component] elements of the
    document that are [HTMLElement]s. *)
Theorem sectionsToUpdate_own_first_no_duplicates (own : string)
    (items : list cart_items_element) :
  (∃ rest, sectionsToUpdate own items = own :: rest)
  ∧ NoDup (sectionsToUpdate own items)
  ∧ ∀ s, s ∈ sectionsToUpdate own items
         ↔ s = own ∨ ∃ item, item ∈ items ∧ qualifies s item.
Proof.
  destruct (sectionsToUpdate_from items own [] (NoDup_singleton own))
    as (Hhead & Hnd & Hin).
  split; [done|]. split; [done|]. intros s. unfold sectionsToUpdate. rewrite Hin.
  by rewrite list_elem_of_singleton.
Qed.

(** X2: whatever the page, a [fetch] that [updateQuantity] makes goes to
    [Theme.routes.cart_change_url] and carries the line and the quantity
    it was given, the sections of X1 joined by commas, and the path of
    the page; and it makes no [fetch] but that one. *)
Theorem updateQuantity_posts_its_config (c : config) (p p' : page) r out :
  updateQuantity c p = (r, p', out) →
  (length (fetches out) ≤ 1)%nat
  ∧ ∀ url body, Fetch url body ∈ out →
      ∃ own,
        dataset_sectionId p = Some own ∧ own ≠ ""
        ∧ url = cart_change_url p
        ∧ body_line body = line c
        ∧ body_quantity body = quantity c
        ∧ body_sections body = join (sectionsToUpdate own (cart_items_components p))
        ∧ body_sections_url body = location_pathname p.
Proof.
  intros E. destruct (section_id_cases p) as [Hs|(own & Hs & Hne)].
  - rewrite (updateQuantity_throws c p Hs) in E. injection E as _ _ <-.
    split; [simpl; lia|]. intros url body H.
    repeat (apply elem_of_cons in H as [H|H]; [discriminate H|]).
    by apply elem_of_nil in H.
  - rewrite (updateQuantity_requests c p own Hs Hne) in E.
    assert (out = request_effects c own p) as -> by (by injection E as _ _ <-).
    rewrite fetches_request_effects. split; [simpl; lia|].
    intros url body H. exists own.
    assert (Fetch url body ∈ fetches (request_effects c own p)) as H'.
    { apply list_elem_of_filter. by split. }
    rewrite fetches_request_effects in H'.
    apply list_elem_of_singleton in H' as [= -> ->]. by repeat split.
Qed.

Lemma updateQuantity_posts_its_config_witness :
  updateQuantity (clear 2) cart_page
  = (Normal tt, requested (clear 2) cart_page, request_effects (clear 2) "main-cart" cart_page)
  ∧ (length (fetches (request_effects (clear 2) "main-cart" cart_page)) ≤ 1)%nat.
Proof.
  split; [reflexivity|].
  apply (updateQuantity_posts_its_config (clear 2) cart_page
           (requested (clear 2) cart_page) (Normal tt)).
  reflexivity.
Defined.

(** X3: an empty [data-section-id] counts as a missing one: the getter
    throws, and so does [updateQuantity], with the class added and
    nothing posted. *)
Theorem empty_section_id_is_missing (c : config) (p : page) :
  dataset_sectionId p = Some "" →
  sectionId p = (Throw (JsError "Error" "Section id missing"), p, [])
  ∧ ∃ out,
      updateQuantity c p = (Throw (JsError "Error" "Section id missing"), disable p, out)
      ∧ fetches out = []
      ∧ disabled (disable p) = true.
Proof.
  intros H. assert (truthy (dataset_sectionId p) = false) as F by by rewrite H.
  split; [by apply sectionId_falsy|]. eexists.
  split; [by apply updateQuantity_throws|]. split; [done | apply disabled_disable].
Qed.

Lemma empty_section_id_is_missing_witness :
  dataset_sectionId (with_sectionId (Some "") cart_page) = Some ""
  ∧ sectionId (with_sectionId (Some "") cart_page)
    = (Throw (JsError "Error" "Section id missing"), with_sectionId (Some "") cart_page, []).
Proof.
  split; [reflexivity|].
  apply (empty_section_id_is_missing (clear 1) (with_sectionId (Some "") cart_page)).
  reflexivity.
Defined.

(** ** Quantity changes *)

(** Go through a list of effects that is known element by element. *)
Ltac each_effect :=
  repeat (constructor; [simpl; tauto|]); try (by constructor).

(** X4: an event with a quantity other than 0 never removes a row: the
    rows stay as they are, no removal animation is started and none is
    awaited, whether the request goes out or not. *)
Theorem quantity_change_keeps_the_rows (event : detail) (p p' : page) r out :
  detail_quantity event ≠ 0 →
  onQuantityChange event p = (r, p', out) →
  cartItemRows p' = cartItemRows p
  ∧ animating p' = animating p
  ∧ Forall (λ a, ¬ is_OnAnimationEnd a) out.
Proof.
  intros Hq E. destruct (cartLine event) as [line|] eqn:Hl.
  2: { rewrite (onQuantityChange_no_line event p (or_introl Hl)) in E.
       injection E as _ <- <-. repeat split. constructor. }
  destruct (decide (line = 0)) as [->|Hz].
  { rewrite (onQuantityChange_no_line event p (or_intror Hl)) in E.
    injection E as _ <- <-. repeat split. constructor. }
  destruct (section_id_cases p) as [Hs|(own & Hs & Hne)].
  - rewrite (onQuantityChange_throws event line p Hl Hz Hq Hs) in E.
    injection E as _ <- <-. repeat split. each_effect.
  - rewrite (onQuantityChange_requests event line p own Hl Hz Hq Hs Hne) in E.
    assert (p' = requested (change_of event line) p
            ∧ out = request_effects (change_of event line) own p ++ row_shimmer p line)
      as [-> ->] by (by injection E as _ <- <-).
    repeat split. apply Forall_app. split.
    + unfold request_effects. destruct (cartTotal p); simpl; each_effect.
    + unfold row_shimmer. destruct (at_index _ _) as [row|]; [|constructor].
      destruct (text_component row); each_effect.
Qed.

Lemma quantity_change_keeps_the_rows_witness :
  detail_quantity change_line_1_to_3 ≠ 0
  ∧ cartItemRows (requested (change_of change_line_1_to_3 1) cart_page)
    = cartItemRows cart_page.
Proof.
  split; [done|].
  apply (quantity_change_keeps_the_rows change_line_1_to_3 cart_page
           (requested (change_of change_line_1_to_3 1) cart_page) (Normal tt)
           (request_effects (change_of change_line_1_to_3 1) "main-cart" cart_page
            ++ row_shimmer cart_page 1)); done.
Defined.

(** ** Removal, to its end *)

Lemma run_app (os1 os2 : list occurrence) (p : page) :
  run (os1 ++ os2) p =
    match run os1 p with
    | (p1, out1) => match run os2 p1 with (p2, out2) => (p2, out1 ++ out2) end
    end.
Proof.
  revert p. induction os1 as [|o os1 IH]; intros p; simpl.
  - by destruct (run os2 p).
  - destruct (step o p) as [p1 out1]. rewrite IH.
    destruct (run os1 p1) as [p2 out2]. destruct (run os2 p2) as [p3 out3].
    by rewrite app_assoc.
Qed.

(** The animations awaited end, in the order they were awaited in. *)
Lemma run_animation_ends (awaited : list nat) (p : page) :
  animating p = awaited →
  run (AnimationEnds <$> awaited) p
  = (set_animating []
       (set_cartItemRows (rows_after detach (cartItemRows p) awaited) p), []).
Proof.
  revert p. induction awaited as [|row awaited IH]; intros p Ha.
  - unfold rows_after. simpl. destruct p; simpl in *. by rewrite Ha.
  - cbn [fmap list_fmap run]. unfold step, animation_ended. rewrite Ha.
    rewrite bool_decide_eq_true_2 by apply list_elem_of_here.
    unfold task, remove, write. cbn [remove_first].
    rewrite bool_decide_eq_true_2 by done.
    rewrite IH by done. done.
Qed.

(** X5: a removal under normal motion, once the animations it started
    have ended: the row of the line and its nested rows are out of the
    document, carrying the class and the height the animation was
    started with, the other rows are as they were, nothing is awaited any
    more, and the ends of the animations emitted nothing. *)
Theorem removal_completes (line : Z) (p : page) (own : string) :
  dataset_sectionId p = Some own → own ≠ "" →
  reduced_motion p = false → animating p = [] →
  ∃ p1 out1 p2,
    onLineItemRemove line p = (Normal tt, p1, out1)
    ∧ run (AnimationEnds <$> animating p1) p1 = (p2, [])
    ∧ animating p2 = []
    ∧ ∀ j row, cartItemRows p !! j = Some row →
        (removal_target (cartItemRows p) line j →
           cartItemRows p2 !! j = Some (detach (start_removing row)))
        ∧ (¬ removal_target (cartItemRows p) line j → cartItemRows p2 !! j = Some row).
Proof.
  intros Hs Hne Hm Ha.
  destruct (onLineItemRemove_rows line p own Hs Hne) as (p1 & out1 & E & Hrows & Hanim & _).
  exists p1, out1. eexists. split; [done|].
  split; [by apply run_animation_ends|]. split; [done|].
  intros j row Hrow. simpl.
  rewrite rows_after_lookup by apply detach_idempotent. rewrite Hrows, Hanim, Hm, Ha.
  destruct (at_index (cartItemRows p) (line - 1)) as [target|] eqn:Ht.
  - rewrite rows_after_lookup, Hrow by apply removal_idempotent. simpl.
    rewrite (removal_target_rowsToRemove _ _ _ _ Ht). split; intros Hj.
    + by rewrite bool_decide_eq_true_2.
    + by rewrite bool_decide_eq_false_2.
  - rewrite Hrow. simpl. split; [|done].
    intros (target & Hc & _). congruence.
Qed.

Lemma removal_completes_witness :
  (dataset_sectionId cart_page = Some "main-cart" ∧ "main-cart" ≠ ""
   ∧ reduced_motion cart_page = false ∧ animating cart_page = [])
  ∧ ∃ p1 out1 p2,
      onLineItemRemove 1 cart_page = (Normal tt, p1, out1)
      ∧ run (AnimationEnds <$> animating p1) p1 = (p2, [])
      ∧ animating p2 = []
      ∧ ∀ j row, cartItemRows cart_page !! j = Some row →
          (removal_target (cartItemRows cart_page) 1 j →
             cartItemRows p2 !! j = Some (detach (start_removing row)))
          ∧ (¬ removal_target (cartItemRows cart_page) 1 j →
             cartItemRows p2 !! j = Some row).
Proof.
  split; [done|].
  apply (removal_completes 1 cart_page "main-cart"); done.
Defined.

Lemma rows_after_Forall2 (f : cart_item_row → cart_item_row) (targets : list nat)
    (rows : list cart_item_row) (R : cart_item_row → cart_item_row → Prop) :
  (∀ row, R row row) → (∀ row, R row (f row)) → (∀ row, f (f row) = f row) →
  ∀ j row', rows_after f rows targets !! j = Some row' →
    ∃ row, rows !! j = Some row ∧ R row row'.
Proof.
  intros Hrefl Hf Hidem j row'. rewrite rows_after_lookup by done.
  destruct (rows !! j) as [row|]; [|done]. simpl. intros [= <-]. exists row.
  split; [done|]. by destruct (bool_decide _).
Qed.


Lemma onLineItemRemove_rows_related (R : cart_item_row → cart_item_row → Prop)
    (line : Z) (p p' : page) r out :
  (∀ row, R row row) → (∀ row, R row (removal (reduced_motion p) row)) →
  onLineItemRemove line p = (r, p', out) →
  rows_related R p p'.
Proof.
  intros Hrefl Hf E. destruct (section_id_cases p) as [Hs|(own & Hs & Hne)].
  - rewrite (onLineItemRemove_throws line p Hs) in E. injection E as _ <- _.
    intros j row' Hrow. by exists row'.
  - destruct (onLineItemRemove_rows line p own Hs Hne) as (q & out' & E' & Hrows & _).
    rewrite E in E'. injection E' as _ <- _. intros j row'. rewrite Hrows.
    destruct (at_index (cartItemRows p) (line - 1)) as [target|].
    + by apply rows_after_Forall2; [..|apply removal_idempotent].
    + intros Hrow. by exists row'.
Qed.

(** X6: under reduced motion a removal animates nothing: whatever the
    page, [onLineItemRemove] leaves the style and the classes of every
    row as they were, calls [onAnimationEnd] for none and awaits no
    animation. *)
Theorem reduced_motion_animates_nothing (line : Z) (p p' : page) r out :
  reduced_motion p = true →
  onLineItemRemove line p = (r, p', out) →
  rows_related same_look p p'
  ∧ animating p' = animating p
  ∧ Forall (λ a, ¬ is_OnAnimationEnd a) out.
Proof.
  intros Hm E. split.
  { apply (onLineItemRemove_rows_related same_look line p p' r out); [done| |done].
    rewrite Hm. by intros row. }
  destruct (section_id_cases p) as [Hs|(own & Hs & Hne)].
  - rewrite (onLineItemRemove_throws line p Hs) in E. injection E as _ <- <-.
    split; [done|]. each_effect.
  - rewrite (onLineItemRemove_requests line p own Hs Hne), Hm in E.
    assert (animating p' = animating p
            ∧ out = request_effects (clear line) own p) as [-> ->].
    { destruct (at_index (cartItemRows p) (line - 1)); by injection E as _ <- <-. }
    split; [done|]. unfold request_effects. destruct (cartTotal p); simpl; each_effect.
Qed.

Lemma reduced_motion_animates_nothing_witness :
  reduced_motion calm_page = true
  ∧ animating (onLineItemRemove 1 calm_page).1.2 = animating calm_page.
Proof.
  split; [reflexivity|].
  destruct (onLineItemRemove 1 calm_page) as [[r p'] out] eqn:E.
  apply (reduced_motion_animates_nothing 1 calm_page p' r out eq_refl E).
Defined.

(** X7: under normal motion [onLineItemRemove] takes no row out of the
    document itself: every row is as much in the document after it as
    before; the rows leave when their animations end (X5). *)
Theorem normal_motion_removes_later (line : Z) (p p' : page) r out :
  reduced_motion p = false →
  onLineItemRemove line p = (r, p', out) →
  rows_related same_presence p p'.
Proof.
  intros Hm E.
  apply (onLineItemRemove_rows_related same_presence line p p' r out); [done| |done].
  rewrite Hm. by intros row.
Qed.

Lemma normal_motion_removes_later_witness :
  reduced_motion cart_page = false
  ∧ rows_related same_presence cart_page (onLineItemRemove 1 cart_page).1.2.
Proof.
  split; [reflexivity|].
  destruct (onLineItemRemove 1 cart_page) as [[r p'] out] eqn:E.
  apply (normal_motion_removes_later 1 cart_page p' r out eq_refl E).
Defined.

(** X8: when the row of the line has no [data-key], every row without
    [data-parent-key] counts as nested under it ([undefined ===
    undefined]): on an element with its section id, the removal of that
    line removes all of them. *)
Theorem keyless_row_takes_top_level_rows (line : Z) (p : page) (own : string)
    (target : cart_item_row) :
  dataset_sectionId p = Some own → own ≠ "" →
  at_index (cartItemRows p) (line - 1) = Some target →
  data_key target = None →
  ∃ p' out,
    onLineItemRemove line p = (Normal tt, p', out)
    ∧ ∀ j row, cartItemRows p !! j = Some row → data_parent_key row = None →
        cartItemRows p' !! j = Some (removal (reduced_motion p) row).
Proof.
  intros Hs Hne Ht Hk.
  destruct (onLineItemRemove_rows line p own Hs Hne) as (p' & out & E & Hrows & _).
  exists p', out. split; [done|]. intros j row Hrow Hp.
  rewrite Hrows, Ht, rows_after_lookup, Hrow by apply removal_idempotent.
  rewrite bool_decide_eq_true_2; [done|]. apply elem_of_rowsToRemove.
  right. exists row. split; [done|]. by rewrite Hp, Hk.
Qed.

Lemma keyless_row_takes_top_level_rows_witness :
  (dataset_sectionId keyless_page = Some "main-cart" ∧ "main-cart" ≠ ""
   ∧ at_index (cartItemRows keyless_page) (1 - 1) = Some keyless_row
   ∧ data_key keyless_row = None)
  ∧ ∃ p' out,
      onLineItemRemove 1 keyless_page = (Normal tt, p', out)
      ∧ ∀ j row, cartItemRows keyless_page !! j = Some row →
          data_parent_key row = None →
          cartItemRows p' !! j = Some (removal (reduced_motion keyless_page) row).
Proof.
  split; [done|].
  apply (keyless_row_takes_top_level_rows 1 keyless_page "main-cart" keyless_row); done.
Defined.

(** ** Requests, one by one *)

Lemma last_finally_effects (out : list effect) (r : request) :
  last (out ++ finally_effects r) = Some (MeasureFromMarker (request_marker r)).
Proof.
  unfold finally_effects.
  change [ClassListRemove disabled_class; MeasureFromMarker (request_marker r)]
    with ([ClassListRemove disabled_class] ++ [MeasureFromMarker (request_marker r)]).
  by rewrite app_assoc, last_snoc.
Qed.

(** X9: the [k]-th request in flight settles on its own: whatever the
    outcome, its chain ends normally (nothing is left uncaught), the
    other requests stay in flight in their order, the class is off, and
    the last thing done is to measure from the marker this request
    created when it started.  A settlement for a request that is not in
    flight does nothing. *)
Theorem requests_settle_independently (k : nat) (result : fetch_result) (p : page) :
  (∀ r, in_flight p !! k = Some r →
     ∃ p' out,
       step (Settles k result) p = (p', out)
       ∧ settle r result (set_in_flight (delete k (in_flight p)) p) = (Normal tt, p', out)
       ∧ in_flight p' = delete k (in_flight p)
       ∧ disabled p' = false
       ∧ last out = Some (MeasureFromMarker (request_marker r)))
  ∧ (in_flight p !! k = None → step (Settles k result) p = (p, [])).
Proof.
  split.
  - intros r Hk. unfold step, task. rewrite Hk.
    set (q := set_in_flight (delete k (in_flight p)) p).
    pose proof (settle_cases r result q) as E.
    destruct (settle r result q) as [[c p'] out] eqn:Es.
    assert (c = Normal tt ∧ disabled p' = false
            ∧ last out = Some (MeasureFromMarker (request_marker r))) as (-> & Hd & Hl).
    { destruct (response_chain r result q) as [[[[]|e] p1] out1];
        injection E as -> -> ->; (split; [done|]); (split; [apply disabled_enable|]).
      - apply last_finally_effects.
      - change (out1 ++ ConsoleError e :: finally_effects r)
          with (out1 ++ [ConsoleError e] ++ finally_effects r).
        rewrite app_assoc. apply last_finally_effects. }
    exists p', out. split; [done|]. split; [done|].
    split; [by rewrite (keeps_settle _ _ _ _ _ _ Es)|]. done.
  - intros Hk. unfold step. by rewrite Hk.
Qed.

Lemma requests_settle_independently_witness :
  in_flight (run [QuantitySelectorUpdate change_line_1_to_3;
                  QuantitySelectorUpdate remove_line_1] cart_page).1 !! 1%nat
  = Some {| request_line := 1; request_marker := "clear:user-action" |}
  ∧ ∃ p' out,
      step (Settles 1 updated_cart)
        (run [QuantitySelectorUpdate change_line_1_to_3;
              QuantitySelectorUpdate remove_line_1] cart_page).1 = (p', out)
      ∧ last out = Some (MeasureFromMarker "clear:user-action").
Proof.
  split; [reflexivity|].
  destruct (proj1 (requests_settle_independently 1 updated_cart
                     (run [QuantitySelectorUpdate change_line_1_to_3;
                           QuantitySelectorUpdate remove_line_1] cart_page).1)
              {| request_line := 1; request_marker := "clear:user-action" |} eq_refl)
    as (p' & out & E & _ & _ & _ & Hl).
  by exists p', out.
Defined.

(** ** The quantity selectors of the document *)

Lemma alter_at_length {A : Type} (f : A → A) (before : list A) (x : A) (after : list A) :
  alter f (length before) (before ++ x :: after) = before ++ f x :: after.
Proof.
  rewrite <- (Nat.add_0_r (length before)) at 1. by rewrite alter_app_r.
Qed.

Lemma update_selector_cases (item : cart_item) (i : nat) (selector : selector_component)
    (p : page) :
  ∃ out,
    update_selector item i selector p
    = (Normal tt,
       (if bool_decide (data_variant_id selector = Some (pretty (variant_id item)))
        then match data_cart_quantity selector with
             | Some _ =>
                 set_selector_components
                   (alter (with_cart_quantity (pretty (item_quantity item))) i
                      (selector_components p)) p
             | None => p
             end
        else p), out)
    ∧ Forall is_UpdateCartQuantity out.
Proof.
  unfold update_selector, when.
  destruct (bool_decide (data_variant_id selector = Some (pretty (variant_id item))));
    [|by exists []].
  destruct (data_cart_quantity selector); [|by exists []].
  unfold mbind, M_bind, write, emit, mret, M_ret.
  destruct (has_updateCartQuantity selector); eexists; (split; [reflexivity|]);
    by repeat constructor.
Qed.

(** The inner loop, from the selector at position [length before] on. *)
Lemma for_each_update_selector (item : cart_item) (rest before : list selector_component)
    (p : page) :
  selector_components p = before ++ rest →
  ∃ out,
    for_each (update_selector item) (length before) rest p
    = (Normal tt, set_selector_components (before ++ (apply_item item <$> rest)) p, out)
    ∧ Forall is_UpdateCartQuantity out.
Proof.
  revert before p. induction rest as [|selector rest IH]; intros before p Hp.
  - exists []. split; [|done]. simpl. rewrite <- Hp. by destruct p.
  - cbn [for_each].
    destruct (update_selector_cases item (length before) selector p) as (out1 & E1 & F1).
    set (p1 := if bool_decide (data_variant_id selector = Some (pretty (variant_id item)))
               then match data_cart_quantity selector with
                    | Some _ =>
                        set_selector_components
                          (alter (with_cart_quantity (pretty (item_quantity item)))
                             (length before) (selector_components p)) p
                    | None => p
                    end
               else p) in *.
    assert (selector_components p1 = (before ++ [apply_item item selector]) ++ rest
            ∧ ∀ v, set_selector_components v p1 = set_selector_components v p)
      as [Hp1 Hset].
    { unfold p1, apply_item. rewrite <- app_assoc.
      change ([apply_item item selector] ++ rest) with (apply_item item selector :: rest).
      destruct (bool_decide _); [|done].
      destruct (data_cart_quantity selector); [|done].
      cbn [selector_components set_selector_components].
      by rewrite Hp, alter_at_length. }
    destruct (IH (before ++ [apply_item item selector]) p1 Hp1) as (out2 & E2 & F2).
    rewrite length_app in E2. simpl in E2. rewrite Nat.add_1_r in E2.
    exists (out1 ++ out2). split; [|by apply Forall_app].
    rewrite (bind_normal _ _ _ _ _ _ E1), E2, Hset.
    by rewrite <- app_assoc.
Qed.

Lemma apply_items_fmap (items : list cart_item) (item : cart_item)
    (selectors : list selector_component) :
  apply_items items <$> (apply_item item <$> selectors)
  = apply_items (item :: items) <$> selectors.
Proof. rewrite <- list_fmap_compose. by apply list_fmap_ext. Qed.

(** The outer loop, from any position. *)
Lemma for_each_item (items : list cart_item) (n : nat) (p : page) :
  ∃ out,
    for_each (λ _ item,
                selectors ← read selector_components;
                for_each (update_selector item) 0%nat selectors) n items p
    = (Normal tt,
       set_selector_components (apply_items items <$> selector_components p) p, out)
    ∧ Forall is_UpdateCartQuantity out.
Proof.
  revert p n. induction items as [|item items IH]; intros p n.
  - exists []. split; [|done]. simpl. rewrite list_fmap_id. by destruct p.
  - cbn [for_each]. cbn beta.
    destruct (for_each_update_selector item (selector_components p) [] p eq_refl)
      as (out1 & E1 & F1). simpl in E1.
    assert ((selectors ← read selector_components;
             for_each (update_selector item) 0%nat selectors) p
            = (Normal tt,
               set_selector_components (apply_item item <$> selector_components p) p,
               out1)) as E1' by (by rewrite bind_read).
    destruct (IH (set_selector_components (apply_item item <$> selector_components p) p)
                (S n)) as (out2 & E2 & F2).
    exists (out1 ++ out2). split; [|by apply Forall_app].
    rewrite (bind_normal _ _ _ _ _ _ E1'), E2. simpl.
    by rewrite apply_items_fmap.
Qed.

(** What [#updateQuantitySelectors] makes of the selectors. *)
Lemma updateQuantitySelectors_selectors errors sections (items : list cart_item)
    (p : page) :
  ∃ out,
    updateQuantitySelectors (JsonObject errors sections (Some items)) p
    = (Normal tt,
       set_selector_components (apply_items items <$> selector_components p) p, out)
    ∧ Forall is_UpdateCartQuantity out.
Proof.
  unfold updateQuantitySelectors, get_items. rewrite bind_ret. apply for_each_item.
Qed.

Lemma apply_item_frame (item : cart_item) (selector : selector_component) :
  tag (apply_item item selector) = tag selector
  ∧ data_variant_id (apply_item item selector) = data_variant_id selector
  ∧ has_updateCartQuantity (apply_item item selector) = has_updateCartQuantity selector
  ∧ has_updateButtonStates (apply_item item selector) = has_updateButtonStates selector
  ∧ (data_cart_quantity selector = None → apply_item item selector = selector)
  ∧ (is_Some (data_cart_quantity selector)
     → is_Some (data_cart_quantity (apply_item item selector))).
Proof.
  unfold apply_item. destruct (bool_decide _); [|done].
  destruct (data_cart_quantity selector) eqn:E; [|done]. repeat split; [done|].
  intros _. by eexists.
Qed.

Lemma apply_items_untouched (items : list cart_item) (selector : selector_component) :
  data_cart_quantity selector = None
  ∨ (∀ item, item ∈ items → data_variant_id selector ≠ Some (pretty (variant_id item))) →
  apply_items items selector = selector.
Proof.
  unfold apply_items. revert selector.
  induction items as [|item items IH]; intros selector H; [done|]. simpl.
  assert (apply_item item selector = selector) as ->.
  { destruct H as [H|H]; [by apply apply_item_frame|].
    unfold apply_item. rewrite bool_decide_eq_false_2; [done|].
    apply H, list_elem_of_here. }
  apply IH. destruct H as [H|H]; [by left|]. right.
  intros it Hit. by apply H, list_elem_of_further.
Qed.

(** X10: [#updateQuantitySelectors] never throws, calls nothing but
    [updateCartQuantity], and keeps the selectors of the document in
    number and place; a selector without an [input[data-cart-quantity]],
    and a selector whose [data-variant-id] is the variant of no item, is
    left exactly as it was.  Without [items] nothing happens at all. *)
Theorem updateQuantitySelectors_frame errors sections (items : option (list cart_item))
    (p : page) :
  ∃ p' out,
    updateQuantitySelectors (JsonObject errors sections items) p = (Normal tt, p', out)
    ∧ Forall is_UpdateCartQuantity out
    ∧ length (selector_components p') = length (selector_components p)
    ∧ (∀ i selector, selector_components p !! i = Some selector →
         data_cart_quantity selector = None
         ∨ (∀ item, item ∈ default [] items →
              data_variant_id selector ≠ Some (pretty (variant_id item))) →
         selector_components p' !! i = Some selector)
    ∧ (items = None → p' = p ∧ out = []).
Proof.
  destruct items as [items|].
  - destruct (updateQuantitySelectors_selectors errors sections items p) as (out & E & F).
    eexists _, out. split; [done|]. split; [done|]. simpl.
    split; [by rewrite length_fmap|]. split; [|done].
    intros i selector Hi H. rewrite list_lookup_fmap, Hi. simpl.
    by rewrite apply_items_untouched.
  - exists p, []. unfold updateQuantitySelectors, get_items. rewrite bind_ret.
    by repeat split.
Qed.

Lemma updateQuantitySelectors_frame_witness :
  selector_components cart_page !! 0%nat
  = Some {| tag := cart_quantity_selector_component; data_variant_id := Some "40";
            data_cart_quantity := Some "2"; has_updateCartQuantity := true;
            has_updateButtonStates := true |}
  ∧ ∃ p' out,
      updateQuantitySelectors
        (JsonObject None None (Some [ {| variant_id := 41; item_quantity := 9 |} ]))
        cart_page = (Normal tt, p', out)
      ∧ selector_components p' !! 0%nat = selector_components cart_page !! 0%nat.
Proof.
  split; [reflexivity|].
  destruct (updateQuantitySelectors_frame None None
              (Some [ {| variant_id := 41; item_quantity := 9 |} ]) cart_page)
    as (p' & out & E & _ & _ & Hframe & _).
  exists p', out. split; [done|]. eapply Hframe; [reflexivity|].
  right. intros item ->%list_elem_of_singleton. simpl. discriminate.
Defined.






(** The loop of [#updateCartQuantitySelectorButtonStates], from position [i]. *)
Lemma for_each_button_states (selectors : list selector_component) (i : nat) (p : page) :
  for_each (λ i selector,
              match tag selector with
              | cart_quantity_selector_component =>
                  when (has_updateButtonStates selector) (emit (UpdateButtonStates i))
              | quantity_selector_component => mret tt
              end) i selectors p
  = (Normal tt, p, UpdateButtonStates <$> positions with_button_states i selectors).
Proof.
  revert i. induction selectors as [|selector selectors IH]; intros i; [done|].
  cbn [for_each positions]. unfold mbind, M_bind, with_button_states.
  destruct (tag selector), (has_updateButtonStates selector); simpl; by rewrite IH.
Qed.

Lemma updateCartQuantitySelectorButtonStates_calls (p : page) :
  updateCartQuantitySelectorButtonStates p
  = (Normal tt, p, UpdateButtonStates <$> positions with_button_states 0 (selector_components p)).
Proof.
  unfold updateCartQuantitySelectorButtonStates. rewrite bind_read.
  apply for_each_button_states.
Qed.

(** X12: [#updateCartQuantitySelectorButtonStates] leaves the page as it
    is and calls [updateButtonStates] once on each
    [cart-quantity-selector-component] that has the method, in document
    order, and on nothing else. *)
Theorem button_states_of_cart_selectors (p : page) (i : nat) :
  updateCartQuantitySelectorButtonStates p
  = (Normal tt, p, UpdateButtonStates <$> positions with_button_states 0 (selector_components p))
  ∧ (i ∈ positions with_button_states 0 (selector_components p)
     ↔ ∃ selector,
         selector_components p !! i = Some selector
         ∧ tag selector = cart_quantity_selector_component
         ∧ has_updateButtonStates selector = true)
  ∧ NoDup (positions with_button_states 0 (selector_components p)).
Proof.
  split; [|split].
  - apply updateCartQuantitySelectorButtonStates_calls.
  - rewrite elem_of_positions, Nat.sub_0_r. unfold with_button_states. split.
    + intros (selector & _ & Hs & Hb). exists selector. split; [done|].
      by destruct (tag selector).
    + intros (selector & Hs & Ht & Hb). exists selector.
      repeat split; [lia|done|]. by rewrite Ht.
  - generalize 0%nat. induction (selector_components p) as [|s ss IH]; intros k.
    + constructor.
    + simpl. destruct (with_button_states s); [|apply IH].
      constructor; [|apply IH]. rewrite elem_of_positions.
      intros (? & ? & _). lia.
Qed.

(** ** Cart and discount updates *)

Arguments handleCartUpdate : simpl never.
Arguments handleDiscountUpdate : simpl never.
Arguments run_update : simpl never.

Lemma did_sectionId_truthy (p : page) (own : string) :
  dataset_sectionId p = Some own → own ≠ "" →
  did sectionId p = (Normal own, p, []).
Proof. intros Hs Hne. unfold did. by rewrite (sectionId_truthy p own Hs Hne). Qed.

Lemma did_sectionId_falsy (p : page) :
  truthy (dataset_sectionId p) = false →
  did sectionId p = (Throw section_id_missing, p, []).
Proof. intros Hs. unfold did. by rewrite (sectionId_falsy p Hs). Qed.

Lemma U_bind_normal {A B : Type} (m : U A) (k : A → U B) (p p1 : page) (a : A) out1 :
  m p = (Normal a, p1, out1) →
  (m ≫= k) p = match k a p1 with (c, p2, out2) => (c, p2, out1 ++ out2) end.
Proof. intros E. unfold mbind, U_bind. by rewrite E. Qed.

Lemma U_bind_throw {A B : Type} (m : U A) (k : A → U B) (p p1 : page) (e : js_error) out1 :
  m p = (Throw e, p1, out1) → (m ≫= k) p = (Throw e, p1, out1).
Proof. intros E. unfold mbind, U_bind. by rewrite E. Qed.

(** The markup a cart event brings for a section. *)
Lemma html_truthy_markup (html : option section_value) :
  html_truthy html = true ↔ ∃ f, html = Some (SectionHtml f) ∧ markup f ≠ "".
Proof.
  destruct html as [[|f]|]; simpl.
  - split; [done | by intros (? & ? & _)].
  - destruct (String.eqb_spec (markup f) ""); simpl; split; try done.
    + by intros (g & [= <-] & ?).
    + intros _. by exists f.
  - split; [done | by intros (? & ? & _)].
Qed.

(** [#handleCartUpdate] on an element that has its section id. *)
Lemma handleCartUpdate_cases (event : cart_event) (p : page) (own : string) :
  dataset_sectionId p = Some own → own ≠ "" →
  handleCartUpdate event p =
    match event with
    | DiscountUpdateEvent => (Normal tt, p, [RenderSection own false])
    | CartUpdateEvent true _ => (Normal tt, p, [])
    | CartUpdateEvent false sections =>
        if html_truthy (sections ≫= (.!! own))
        then (Normal tt, p,
              Did (MorphSection own (sections ≫= (.!! own)))
              :: (Did <$> (UpdateButtonStates
                           <$> positions with_button_states 0 (selector_components p))))
        else (Normal tt, p, [RenderSection own false])
    end.
Proof.
  intros Hs Hne. unfold handleCartUpdate.
  pose proof (did_sectionId_truthy p own Hs Hne) as E.
  destruct event as [|[] sections].
  - by rewrite (U_bind_normal _ _ _ _ _ _ E).
  - done.
  - assert (match sections with
            | Some m => own ← did sectionId; mret (m !! own)
            | None => mret None
            end p = (Normal (sections ≫= (.!! own)), p, [])) as E1.
    { destruct sections as [m|]; [|done]. by rewrite (U_bind_normal _ _ _ _ _ _ E). }
    rewrite (U_bind_normal _ _ _ _ _ _ E1).
    destruct (html_truthy (sections ≫= (.!! own))).
    + rewrite (U_bind_normal _ _ _ _ _ _ E). unfold mbind, U_bind, did, emit.
      by rewrite updateCartQuantitySelectorButtonStates_calls.
    + by rewrite (U_bind_normal _ _ _ _ _ _ E).
Qed.

(** X13: a [DiscountUpdateEvent] makes the component render its section
    anew, without cache; it morphs nothing and leaves the page model as
    it is. *)
Theorem discount_update_renders_uncached (p : page) (own : string) :
  dataset_sectionId p = Some own → own ≠ "" →
  handleDiscountUpdate DiscountUpdateEvent p = (Normal tt, p, [RenderSection own false])
  ∧ handleCartUpdate DiscountUpdateEvent p = (Normal tt, p, [RenderSection own false]).
Proof.
  intros Hs Hne. unfold handleDiscountUpdate.
  by rewrite (handleCartUpdate_cases DiscountUpdateEvent p own Hs Hne).
Qed.

Lemma discount_update_renders_uncached_witness :
  (dataset_sectionId cart_page = Some "main-cart" ∧ "main-cart" ≠ "")
  ∧ handleDiscountUpdate DiscountUpdateEvent cart_page
    = (Normal tt, cart_page, [RenderSection "main-cart" false]).
Proof.
  split; [done|].
  apply (discount_update_renders_uncached cart_page "main-cart"); done.
Defined.

(** X14: a cart update from elsewhere that brings non-empty markup for
    the section of the component is morphed in, with that markup, and
    then [updateButtonStates] is called on the cart quantity selectors;
    the section is not rendered anew. *)
Theorem foreign_cart_update_is_morphed (sections : gmap string section_value)
    (f : fragment) (p : page) (own : string) :
  dataset_sectionId p = Some own → own ≠ "" →
  sections !! own = Some (SectionHtml f) → markup f ≠ "" →
  handleCartUpdate (CartUpdateEvent false (Some sections)) p
  = (Normal tt, p,
     Did (MorphSection own (Some (SectionHtml f)))
     :: (Did <$> (UpdateButtonStates
                  <$> positions with_button_states 0 (selector_components p)))).
Proof.
  intros Hs Hne Hf Hm.
  rewrite (handleCartUpdate_cases _ p own Hs Hne). simpl. rewrite Hf.
  rewrite (proj2 (html_truthy_markup (Some (SectionHtml f)))); [done|]. by exists f.
Qed.

Lemma foreign_cart_update_is_morphed_witness :
  (dataset_sectionId cart_page = Some "main-cart" ∧ "main-cart" ≠ ""
   ∧ ({[ "main-cart" := SectionHtml main_cart_section ]} : gmap string section_value)
       !! "main-cart" = Some (SectionHtml main_cart_section)
   ∧ markup main_cart_section ≠ "")
  ∧ handleCartUpdate
      (CartUpdateEvent false (Some {[ "main-cart" := SectionHtml main_cart_section ]}))
      cart_page
    = (Normal tt, cart_page,
       Did (MorphSection "main-cart" (Some (SectionHtml main_cart_section)))
       :: (Did <$> (UpdateButtonStates
                    <$> positions with_button_states 0 (selector_components cart_page)))).
Proof.
  split; [done|].
  apply (foreign_cart_update_is_morphed _ main_cart_section cart_page "main-cart"); done.
Defined.

(** X15: a cart update from elsewhere without usable markup for the
    section ([sections] absent, no entry for the section, [null], or
    the empty string) makes the component render its section anew,
    without cache, and morph nothing. *)
Theorem foreign_cart_update_falls_back (sections : option (gmap string section_value))
    (p : page) (own : string) :
  dataset_sectionId p = Some own → own ≠ "" →
  sections = None
  ∨ (∃ m, sections = Some m
          ∧ (m !! own = None ∨ m !! own = Some SectionNull
             ∨ ∃ f, m !! own = Some (SectionHtml f) ∧ markup f = "")) →
  handleCartUpdate (CartUpdateEvent false sections) p
  = (Normal tt, p, [RenderSection own false]).
Proof.
  intros Hs Hne H. rewrite (handleCartUpdate_cases _ p own Hs Hne).
  assert (html_truthy (sections ≫= (.!! own)) = false) as ->; [|done].
  destruct H as [->|(m & -> & [H|[H|(f & H & Hm)]])]; simpl; rewrite ?H; try done.
  simpl. by rewrite Hm.
Qed.

Lemma foreign_cart_update_falls_back_witness :
  (dataset_sectionId cart_page = Some "main-cart" ∧ "main-cart" ≠ "")
  ∧ handleCartUpdate (CartUpdateEvent false (Some {[ "main-cart" := SectionNull ]})) cart_page
    = (Normal tt, cart_page, [RenderSection "main-cart" false]).
Proof.
  split; [done|].
  apply (foreign_cart_update_falls_back _ cart_page "main-cart"); [done..|].
  right. eexists. split; [reflexivity|]. right. by left.
Defined.

(** X16: the component ignores the cart updates it dispatched itself:
    for an event whose target it is, [#handleCartUpdate] does nothing,
    section id or not; for every other event, an element without
    section id makes it throw ['Section id missing'] before it does
    anything. *)
Theorem own_cart_update_is_ignored (event : cart_event) (p : page) :
  (∀ sections, event = CartUpdateEvent true sections →
     handleCartUpdate event p = (Normal tt, p, []))
  ∧ (truthy (dataset_sectionId p) = false →
     (∀ sections, event ≠ CartUpdateEvent true sections) →
     handleCartUpdate event p = (Throw section_id_missing, p, [])).
Proof.
  split.
  - by intros sections ->.
  - intros Hs Hev. pose proof (did_sectionId_falsy p Hs) as E.
    unfold handleCartUpdate. destruct event as [|[] sections].
    + by rewrite (U_bind_throw _ _ _ _ _ _ E).
    + by destruct (Hev sections).
    + destruct sections as [m|].
      * assert ((own ← did sectionId; mret (m !! own)) p
                = (Throw section_id_missing, p, [])) as E1
          by (by rewrite (U_bind_throw _ _ _ _ _ _ E)).
        by rewrite (U_bind_throw _ _ _ _ _ _ E1).
      * rewrite (U_bind_normal _ _ p p None [] eq_refl). simpl.
        by rewrite (U_bind_throw _ _ _ _ _ _ E).
Qed.

Lemma own_cart_update_is_ignored_witness :
  CartUpdateEvent true None = CartUpdateEvent true None
  ∧ handleCartUpdate (CartUpdateEvent true None) page_without_section_id
    = (Normal tt, page_without_section_id, []).
Proof.
  split; [done|].
  apply (proj1 (own_cart_update_is_ignored (CartUpdateEvent true None)
                  page_without_section_id) None).
  reflexivity.
Defined.

(** ** Listeners *)

Lemma addEventListener_elem (type : event_type) (listener : callback)
    (listeners : list (event_type * callback)) (l : event_type * callback) :
  l ∈ addEventListener type listener listeners ↔ l = (type, listener) ∨ l ∈ listeners.
Proof.
  unfold addEventListener.
  destruct (bool_decide_reflect ((type, listener) ∈ listeners)) as [Hin|Hout].
  - split; [intros ?; by right | by intros [->|?]].
  - rewrite elem_of_app, list_elem_of_singleton. tauto.
Qed.

Lemma addEventListener_NoDup (type : event_type) (listener : callback)
    (listeners : list (event_type * callback)) :
  NoDup listeners → NoDup (addEventListener type listener listeners).
Proof.
  intros Hnd. unfold addEventListener.
  destruct (bool_decide_reflect ((type, listener) ∈ listeners)) as [Hin|Hout]; [done|].
  apply NoDup_app. split; [done|]. split; [|apply NoDup_singleton].
  by intros y Hy ->%list_elem_of_singleton.
Qed.

Lemma removeEventListener_elem (type : event_type) (listener : callback)
    (listeners : list (event_type * callback)) (l : event_type * callback) :
  l ∈ removeEventListener type listener listeners ↔ l ≠ (type, listener) ∧ l ∈ listeners.
Proof. unfold removeEventListener. by rewrite list_elem_of_filter. Qed.

Lemma removeEventListener_NoDup (type : event_type) (listener : callback)
    (listeners : list (event_type * callback)) :
  NoDup listeners → NoDup (removeEventListener type listener listeners).
Proof. apply NoDup_filter. Qed.

Lemma connectedCallback_elem (listeners : list (event_type * callback))
    (l : event_type * callback) :
  l ∈ connectedCallback listeners ↔ l ∈ own_listeners ∨ l ∈ listeners.
Proof.
  unfold connectedCallback, own_listeners. rewrite !addEventListener_elem.
  rewrite !elem_of_cons, elem_of_nil. tauto.
Qed.

Lemma disconnectedCallback_elem (listeners : list (event_type * callback))
    (l : event_type * callback) :
  l ∈ disconnectedCallback listeners
  ↔ l ≠ (quantitySelectorUpdate, this_debouncedOnChange)
    ∧ l ≠ (cartUpdate, this_handleCartUpdate) ∧ l ∈ listeners.
Proof. unfold disconnectedCallback. by rewrite !removeEventListener_elem. Qed.

(** X17: [connectedCallback] registers the three listeners of the
    component and nothing else, and registers none of them twice: the
    listeners afterwards are those before and these three; if no
    listener was registered twice before, none is afterwards; a second
    connect changes nothing, and a connect after a disconnect leaves
    the same listeners as the first connect. *)
Theorem connect_registers_once (listeners : list (event_type * callback)) :
  (∀ l, l ∈ connectedCallback listeners ↔ l ∈ own_listeners ∨ l ∈ listeners)
  ∧ (NoDup listeners → NoDup (connectedCallback listeners))
  ∧ connectedCallback (connectedCallback listeners) = connectedCallback listeners
  ∧ (∀ l, l ∈ connectedCallback (disconnectedCallback (connectedCallback listeners))
          ↔ l ∈ connectedCallback listeners).
Proof.
  split; [apply connectedCallback_elem|]. split; [|split].
  - intros Hnd. unfold connectedCallback. by repeat apply addEventListener_NoDup.
  - assert (∀ l, l ∈ own_listeners →
              ∀ ls, l ∈ connectedCallback ls) as Hown.
    { intros l Hl ls. apply connectedCallback_elem. by left. }
    set (ls := connectedCallback listeners).
    unfold connectedCallback at 1, addEventListener.
    rewrite (bool_decide_eq_true_2 ((cartUpdate, this_handleCartUpdate) ∈ ls))
      by (apply Hown; unfold own_listeners; set_solver).
    rewrite (bool_decide_eq_true_2 ((discountUpdate, this_handleDiscountUpdate) ∈ ls))
      by (apply Hown; unfold own_listeners; set_solver).
    by rewrite (bool_decide_eq_true_2 ((quantitySelectorUpdate, this_debouncedOnChange) ∈ ls))
      by (apply Hown; unfold own_listeners; set_solver).
  - intros l. rewrite connectedCallback_elem, disconnectedCallback_elem,
      connectedCallback_elem. split; [tauto|].
    intros [?|Hin]; [by left|].
    destruct (decide (l = (quantitySelectorUpdate, this_debouncedOnChange))) as [->|Hq].
    { left. unfold own_listeners. set_solver. }
    destruct (decide (l = (cartUpdate, this_handleCartUpdate))) as [->|Hc].
    { left. unfold own_listeners. set_solver. }
    right. by auto.
Qed.

Lemma connect_registers_once_witness :
  NoDup [(cartUpdate, foreign 7)]
  ∧ NoDup (connectedCallback [(cartUpdate, foreign 7)]).
Proof.
  split; [apply NoDup_singleton|].
  apply (connect_registers_once [(cartUpdate, foreign 7)]). apply NoDup_singleton.
Defined.

(** X18: [disconnectedCallback] takes the listeners for cart updates and
    for quantity changes off [document] and leaves the one for discount
    updates on it: after a connect and a disconnect,
    [handleDiscountUpdate] is still registered, and the listeners of
    others are as they were. *)
Theorem disconnect_leaves_discount_listener (listeners : list (event_type * callback)) :
  ((discountUpdate, this_handleDiscountUpdate)
     ∈ disconnectedCallback (connectedCallback listeners))
  ∧ ((cartUpdate, this_handleCartUpdate)
       ∉ disconnectedCallback (connectedCallback listeners))
  ∧ ((quantitySelectorUpdate, this_debouncedOnChange)
       ∉ disconnectedCallback (connectedCallback listeners))
  ∧ (∀ type listener, is_foreign listener →
       (type, listener) ∈ disconnectedCallback (connectedCallback listeners)
       ↔ (type, listener) ∈ listeners).
Proof.
  split; [|split; [|split]].
  - apply disconnectedCallback_elem. split; [done|]. split; [done|].
    apply connectedCallback_elem. left. unfold own_listeners.
    apply list_elem_of_further, list_elem_of_here.
  - rewrite disconnectedCallback_elem. by intros (_ & ? & _).
  - rewrite disconnectedCallback_elem. by intros (? & _).
  - intros type listener Hf. rewrite disconnectedCallback_elem, connectedCallback_elem.
    unfold own_listeners. rewrite !elem_of_cons, elem_of_nil.
    destruct listener; try done. split; [|by auto].
    intros (_ & _ & [[?|[?|[?|[]]]]|?]); done.
Qed.

Lemma disconnect_leaves_discount_listener_witness :
  is_foreign (foreign 7)
  ∧ ((cartUpdate, foreign 7)
       ∈ disconnectedCallback (connectedCallback [(cartUpdate, foreign 7)])
     ↔ (cartUpdate, foreign 7) ∈ [(cartUpdate, foreign 7)]).
Proof.
  split; [done|].
  apply (disconnect_leaves_discount_listener [(cartUpdate, foreign 7)]). done.
Defined.

(** The listeners called for an event type are those registered for it. *)
Lemma listeners_for_elem (type : event_type) (listeners : list (event_type * callback))
    (listener : callback) :
  listener ∈ listeners_for type listeners ↔ (type, listener) ∈ listeners.
Proof.
  unfold listeners_for. rewrite list_elem_of_fmap. split.
  - intros ([t l] & -> & [Ht Hin]%list_elem_of_filter). simpl in *. by subst.
  - intros Hin. exists (type, listener). split; [done|].
    by apply list_elem_of_filter.
Qed.

Lemma dispatch_app (called1 called2 : list callback) (event : cart_event) (p : page) :
  dispatch (called1 ++ called2) event p =
    match dispatch called1 event p with
    | (p1, out1) =>
        match dispatch called2 event p1 with (p2, out2) => (p2, out1 ++ out2) end
    end.
Proof.
  revert p. induction called1 as [|listener called1 IH]; intros p; simpl.
  - by destruct (dispatch called2 event p).
  - destruct (match listener with
              | this_handleCartUpdate => run_update (handleCartUpdate event) p
              | this_handleDiscountUpdate => run_update (handleDiscountUpdate event) p
              | _ => (p, [])
              end) as [p1 out1].
    rewrite IH. destruct (dispatch called1 event p1) as [p2 out2].
    destruct (dispatch called2 event p2) as [p3 out3]. by rewrite app_assoc.
Qed.

Lemma dispatch_foreign (called : list callback) (event : cart_event) (p : page) :
  Forall is_foreign called → dispatch called event p = (p, []).
Proof.
  induction 1 as [|listener called Hf _ IH]; [done|]. simpl.
  destruct listener; try done. by rewrite IH.
Qed.

Lemma listeners_for_snoc (type type' : event_type) (listener : callback)
    (listeners : list (event_type * callback)) :
  listeners_for type (listeners ++ [(type', listener)])
  = listeners_for type listeners ++ (if bool_decide (type' = type) then [listener] else []).
Proof.
  unfold listeners_for. rewrite filter_app, fmap_app. f_equal.
  rewrite filter_cons. simpl. destruct (decide (type' = type)) as [->|Hne].
  - by rewrite bool_decide_eq_true_2.
  - by rewrite bool_decide_eq_false_2.
Qed.

Lemma removeEventListener_absent (type : event_type) (listener : callback)
    (listeners : list (event_type * callback)) :
  (type, listener) ∉ listeners → removeEventListener type listener listeners = listeners.
Proof.
  intros Hout. unfold removeEventListener.
  induction listeners as [|l listeners IH]; [done|].
  rewrite filter_cons. destruct (decide (l ≠ (type, listener))) as [Hne|Heq].
  - rewrite IH; [done|]. intros ?. apply Hout. by apply list_elem_of_further.
  - exfalso. apply Hout. apply dec_stable in Heq as ->. apply list_elem_of_here.
Qed.

Lemma removeEventListener_app (type : event_type) (listener : callback)
    (ls1 ls2 : list (event_type * callback)) :
  removeEventListener type listener (ls1 ++ ls2)
  = removeEventListener type listener ls1 ++ removeEventListener type listener ls2.
Proof. apply filter_app. Qed.

Lemma removeEventListener_here (type : event_type) (listener : callback) :
  removeEventListener type listener [(type, listener)] = [].
Proof.
  unfold removeEventListener. rewrite filter_cons.
  destruct (decide ((type, listener) ≠ (type, listener))); done.
Qed.

Lemma removeEventListener_other (type : event_type) (listener : callback)
    (l : event_type * callback) :
  l ≠ (type, listener) → removeEventListener type listener [l] = [l].
Proof.
  intros Hne. unfold removeEventListener. rewrite filter_cons.
  destruct (decide (l ≠ (type, listener))); done.
Qed.

(** X19: an element that was connected and disconnected still answers
    discount updates: with only listeners of others on [document]
    before, a [DiscountUpdateEvent] dispatched after the disconnect
    makes the component render its section, while a cart update reaches
    no listener of the component any more. *)
Theorem disconnected_component_still_renders (listeners : list (event_type * callback))
    (p : page) (own : string) (event : cart_event) :
  Forall (λ l, is_foreign l.2) listeners →
  dataset_sectionId p = Some own → own ≠ "" →
  dispatch (listeners_for discountUpdate (disconnectedCallback (connectedCallback listeners)))
    DiscountUpdateEvent p
  = (p, [RenderSection own false])
  ∧ dispatch (listeners_for cartUpdate (disconnectedCallback (connectedCallback listeners)))
      event p
    = (p, []).
Proof.
  intros Hf Hs Hne.
  assert (∀ l, l ∈ own_listeners → l ∉ listeners) as Hfresh.
  { intros l Hl Hin. rewrite Forall_forall in Hf. specialize (Hf l Hin).
    unfold own_listeners in Hl.
    repeat (apply elem_of_cons in Hl as [->|Hl]; [done|]). by apply elem_of_nil in Hl. }
  assert (disconnectedCallback (connectedCallback listeners)
          = listeners ++ [(discountUpdate, this_handleDiscountUpdate)]) as ->.
  { assert ((cartUpdate, this_handleCartUpdate) ∉ listeners) as Hc
      by (apply Hfresh; unfold own_listeners; set_solver).
    assert ((discountUpdate, this_handleDiscountUpdate) ∉ listeners) as Hd
      by (apply Hfresh; unfold own_listeners; set_solver).
    assert ((quantitySelectorUpdate, this_debouncedOnChange) ∉ listeners) as Hq
      by (apply Hfresh; unfold own_listeners; set_solver).
    unfold connectedCallback, addEventListener.
    rewrite (bool_decide_eq_false_2 _ Hc).
    rewrite (bool_decide_eq_false_2
               ((discountUpdate, this_handleDiscountUpdate)
                ∈ listeners ++ [(cartUpdate, this_handleCartUpdate)])).
    2: { intros [H|H]%elem_of_app; [done|]. by apply list_elem_of_singleton in H. }
    rewrite (bool_decide_eq_false_2
               ((quantitySelectorUpdate, this_debouncedOnChange)
                ∈ (listeners ++ [(cartUpdate, this_handleCartUpdate)])
                  ++ [(discountUpdate, this_handleDiscountUpdate)])).
    2: { intros [[H|H]%elem_of_app|H]%elem_of_app; [done|..];
           by apply list_elem_of_singleton in H. }
    unfold disconnectedCallback.
    rewrite !removeEventListener_app.
    rewrite (removeEventListener_absent cartUpdate this_handleCartUpdate listeners Hc).
    rewrite (removeEventListener_absent quantitySelectorUpdate this_debouncedOnChange
               listeners Hq).
    rewrite (removeEventListener_here cartUpdate), (removeEventListener_here quantitySelectorUpdate).
    rewrite !removeEventListener_other by done.
    by rewrite !app_nil_r. }
  assert (∀ type, Forall is_foreign (listeners_for type listeners)) as Hff.
  { intros type. apply Forall_forall. intros l Hl%listeners_for_elem.
    rewrite Forall_forall in Hf. apply (Hf _ Hl). }
  rewrite !listeners_for_snoc. simpl. split.
  - rewrite dispatch_app, (dispatch_foreign _ _ _ (Hff discountUpdate)). simpl.
    unfold run_update, handleDiscountUpdate.
    by rewrite (handleCartUpdate_cases DiscountUpdateEvent p own Hs Hne).
  - rewrite app_nil_r. by apply dispatch_foreign.
Qed.

Lemma disconnected_component_still_renders_witness :
  (Forall (λ l : event_type * callback, is_foreign l.2) [(discountUpdate, foreign 7)]
   ∧ dataset_sectionId cart_page = Some "main-cart" ∧ "main-cart" ≠ "")
  ∧ dispatch (listeners_for discountUpdate
                (disconnectedCallback (connectedCallback [(discountUpdate, foreign 7)])))
      DiscountUpdateEvent cart_page
    = (cart_page, [RenderSection "main-cart" false]).
Proof.
  assert (Forall (λ l : event_type * callback, is_foreign l.2)
            [(discountUpdate, foreign 7)]) as H by (by repeat constructor).
  split; [done|].
  apply (disconnected_component_still_renders [(discountUpdate, foreign 7)] cart_page
           "main-cart" DiscountUpdateEvent); done.
Defined.

(** ** The item count of a section *)










(** ** Showing an error again *)

Lemma remove_token_idempotent (t : string) (ts : list string) :
  remove_token t (remove_token t ts) = remove_token t ts.
Proof.
  unfold remove_token. induction ts as [|x ts IH]; [done|].
  rewrite filter_cons. destruct (decide (x ≠ t)) as [Hne|Heq]; [|done].
  rewrite filter_cons, decide_True by done. by rewrite IH.
Qed.

(** X21: showing the error of a response a second time changes nothing:
    on a line that has its quantity input, error element and container,
    [#handleCartError] run again on the page it left returns that page. *)
Theorem handleCartError_twice (line : Z) errors sections items (p : page)
    (input : quantity_input) (old : string) (tokens : list string) :
  quantityInput p line = Some input →
  cartItemError p !! line = Some old →
  cartItemErrorContainer p !! line = Some tokens →
  ∃ p1,
    handleCartError line (JsonObject errors sections items) p = (Normal tt, p1, [])
    ∧ handleCartError line (JsonObject errors sections items) p1 = (Normal tt, p1, []).
Proof.
  intros Hin He Hc.
  exists (shown line (default "" errors) tokens (reverted line input p)).
  rewrite (handleCartError_input _ _ _ _ input p Hin), He, Hc. split; [done|].
  rewrite (handleCartError_input _ _ _ _ (revert input)).
  2: { apply (quantityInput_reverted line input p Hin). }
  cbn [cartItemError cartItemErrorContainer shown reverted set_cartItemError
         set_cartItemErrorContainer set_quantitySelectors].
  rewrite !lookup_insert_eq. f_equal. f_equal.
  unfold shown, reverted. simpl.
  rewrite list_insert_insert_eq, !insert_insert_eq, remove_token_idempotent.
  done.
Qed.

Lemma handleCartError_twice_witness :
  (quantityInput cart_page 1 = Some {| value := "7"; defaultValue := "2" |}
   ∧ cartItemError cart_page !! 1 = Some ""
   ∧ cartItemErrorContainer cart_page !! 1 = Some ["hidden"])
  ∧ ∃ p1,
      handleCartError 1 (JsonObject (Some sold_out) None None) cart_page
      = (Normal tt, p1, [])
      ∧ handleCartError 1 (JsonObject (Some sold_out) None None) p1 = (Normal tt, p1, []).
Proof.
  split; [done|].
  apply (handleCartError_twice 1 (Some sold_out) None None cart_page
           {| value := "7"; defaultValue := "2" |} "" ["hidden"]); done.
Defined.
